(** * KoDNLP dataset builders: a shallow embedding of [data/builder.py] and
    [data_manager/utils.py], and the properties of the specification
    settled against it. *)

From Stdlib Require Import ZArith NArith QArith Qround List String Ascii Lia.
From stdpp Require Import base option list gmap strings.

Set Warnings "-register-all".

Local Open Scope Z_scope.
Local Open Scope string_scope.
Local Open Scope list_scope.

(** ** Python values *)

(** A Python [str] is a sequence of Unicode code points. *)
Abbreviation pystr := (list N).

(** A literal of the source, as a [str]. *)
Definition py (s : string) : pystr :=
  map N_of_ascii (list_ascii_of_string s).

(** What a Python variable may hold where the source passes both strings and
    lists through the same parameter (the [fit] argument). *)
Inductive pyval :=
| VStr (s : pystr)
| VList (l : list pyval).

Definition str_list (l : list pystr) : pyval := VList (map VStr l).
Definition str_list_list (l : list (list pystr)) : pyval := VList (map str_list l).

(** ** Exceptions *)

Inductive exn_class :=
| ValueError
| NotImplementedError
| ConfigurationError
| AttributeError
| KeyError
| TypeError
| IndexError
| IOError.

(** [raise ValueError()] carries no argument: [exn_msg] is [None]. *)
Record exn := Exn { exn_type : exn_class; exn_msg : option string }.

Inductive result (A : Type) :=
| Ok (a : A)
| Raise (e : exn).
Arguments Ok {A} a.
Arguments Raise {A} e.

#[global] Instance result_ret : MRet result := fun A a => Ok a.
#[global] Instance result_bind : MBind result := fun A B f m =>
  match m with
  | Ok a => f a
  | Raise e => Raise e
  end.

Definition is_ok {A} (r : result A) : bool :=
  match r with Ok _ => true | Raise _ => false end.

(** ** [str] methods used by the builders *)

(** [str.isspace] on one code point (CPython's [_PyUnicode_IsWhitespace]). *)
Definition py_isspace (c : N) : bool :=
  ((9 <=? c) && (c <=? 13) || (28 <=? c) && (c <=? 32)
   || (c =? 133) || (c =? 160) || (c =? 5760)
   || (8192 <=? c) && (c <=? 8202)
   || (c =? 8232) || (c =? 8233) || (c =? 8239) || (c =? 8287)
   || (c =? 12288))%N.

Definition NL : N := 10%N.

(** [s.split()] with no separator: [cur] is the word being read. *)
Fixpoint split_from (cur : pystr) (s : pystr) : list pystr :=
  match s with
  | [] => match cur with [] => [] | _ => [cur] end
  | c :: s' =>
      if py_isspace c
      then match cur with
           | [] => split_from [] s'
           | _ => cur :: split_from [] s'
           end
      else split_from (cur ++ [c]) s'
  end.

Definition str_split (s : pystr) : list pystr := split_from [] s.

(** [s.rstrip()]: every trailing whitespace character goes. *)
Fixpoint str_rstrip (s : pystr) : pystr :=
  match s with
  | [] => []
  | c :: s' =>
      match str_rstrip s' with
      | [] => if py_isspace c then [] else [c]
      | r => c :: r
      end
  end.

(** [s.replace('\n', '')]. *)
Definition str_remove_nl (s : pystr) : pystr :=
  filter (fun c => c ≠ NL) s.

(** [textfile.readline()] on the unread part of a text stream: the line with
    its terminator, and what is left. At the end of the stream it returns
    the empty string. *)
Fixpoint readline (s : pystr) : pystr * pystr :=
  match s with
  | [] => ([], [])
  | c :: s' =>
      if (c =? NL)%N then ([c], s')
      else let '(l, rest) := readline s' in (c :: l, rest)
  end.

(** The lines a text stream iterates over, each with its terminator. *)
Fixpoint lines_from (cur : pystr) (s : pystr) : list pystr :=
  match s with
  | [] => match cur with [] => [] | _ => [cur] end
  | c :: s' =>
      if (c =? NL)%N then (cur ++ [c]) :: lines_from [] s'
      else lines_from (cur ++ [c]) s'
  end.

Definition file_lines (s : pystr) : list pystr := lines_from [] s.

(** ** Paths *)

(** A [pathlib.Path], as its components. *)
Abbreviation path := (list string).

(** [p / name]. *)
Definition path_join (p : path) (name : string) : path := p ++ [name].
Infix "//" := path_join (at level 40, left associativity).

(** ** numpy and scikit-learn *)

(** The state of a numpy generator, [RandomState(seed)], and the index choice
    of scikit-learn's [ShuffleSplit] for [n] samples and a test size: the
    train and test indices, or the error it raises, and the generator after
    the draw. The generator itself is not modelled. *)
Class Sklearn := {
  rng : Type;
  rng_seed : Z → rng;
  shuffle_split : rng → nat → Q → result (list nat * list nat) * rng }.

(** ** The world: the file system and numpy's global generator *)

(** [files] holds the text of each file as text mode reads it, decoded and
    with its newlines translated. *)
Record world `{Sklearn} := World {
  files : gmap path pystr;
  dirs : gset path;
  np_random : rng }.

(** ** State and exceptions *)

(** A computation on a state [S] that returns or raises; what it did to the
    state before raising stays done. *)
Definition ST (S A : Type) : Type := S → result A * S.

#[global] Instance ST_ret {S} : MRet (ST S) := fun A a s => (Ok a, s).
#[global] Instance ST_bind {S} : MBind (ST S) := fun A B f m s =>
  match m s with
  | (Ok a, s') => f a s'
  | (Raise e, s') => (Raise e, s')
  end.

Definition raise {S A} (c : exn_class) (msg : option string) : ST S A :=
  fun s => (Raise (Exn c msg), s).

Definition lift {S A} (r : result A) : ST S A := fun s => (r, s).

(** A method body runs on the receiver and the world; this runs a
    computation on the world from inside a method. *)
Definition in_world {O W A} (m : ST W A) : ST (O * W) A := fun s =>
  let '(r, w') := m s.2 in (r, (s.1, w')).

Definition self {O W} : ST (O * W) O := fun s => (Ok s.1, s).
Definition set_self {O W} (f : O → O) : ST (O * W) unit :=
  fun s => (Ok tt, (f s.1, s.2)).

(** Calling a method on an object held in a local variable. *)
Definition call {O W A} (m : ST (O * W) A) (o : O) : ST W (A * O) := fun w =>
  let '(r, (o', w')) := m (o, w) in
  (match r with Ok a => Ok (a, o') | Raise e => Raise e end, w').

(** The non-empty prefixes of a path: the directories [mkdir -p] makes. *)
Fixpoint path_prefixes (d : path) : list path :=
  match d with
  | [] => []
  | c :: d' => [c] :: map (cons c) (path_prefixes d')
  end.

Section Files.
Context `{Sklearn}.

(** The working directory and the root are always there. *)
Definition dir_exists (w : world) (d : path) : bool :=
  bool_decide (d = []) || bool_decide (d = ["/"]) || bool_decide (d ∈ dirs w).

(** [open(path, 'r')] and the text it gives. *)
Definition open_read (p : path) : ST world pystr := fun w =>
  match files w !! p with
  | Some text => (Ok text, w)
  | None => (Raise (Exn IOError (Some "No such file or directory")), w)
  end.

(** [open(path, 'w')], a write of [text], and the close. *)
Definition write_text (p : path) (text : pystr) : ST world unit := fun w =>
  match p with
  | [] => (Raise (Exn IOError (Some "Is a directory")), w)
  | _ =>
      if dir_exists w (removelast p) && negb (bool_decide (p ∈ dirs w))
      then (Ok tt, {| files := <[p := text]> (files w); dirs := dirs w;
                      np_random := np_random w |})
      else (Raise (Exn IOError (Some "No such file or directory")), w)
  end.

(** Modelled from the spec: [utils.get_filelines] is not under src/. The
    line count is determined up front and an unreadable path fails with
    IOError. *)
Definition get_filelines (p : path) : ST world nat :=
  text ← open_read p;
  mret (length (file_lines text)).

(** Modelled from the spec: [utils.make_dir_if_not_exist] is not under
    src/. It ensures the directory exists, creating intermediate
    directories as needed, and is idempotent. *)
Definition make_dir_if_not_exist (d : path) : ST world unit := fun w =>
  (Ok tt,
   {| files := files w;
      dirs := dirs w ∪ list_to_set (path_prefixes d);
      np_random := np_random w |}).
End Files.

(** ** The vocabulary *)

(** [data/vocab.py], the class [Vocabulary], is not under src/: what follows
    in this module is modelled from the specification, which gives a
    vocabulary two synchronised mappings and four special tokens, each of
    which may be [None]; it is created empty, fitted once, and read or
    written as JSON. *)
Module Vocabulary.

(** Modelled from the spec: the class [Vocabulary] is missing. Its state is
    the configuration (size bound, frequency bound, special tokens) and the
    two mappings. *)
Record t := {
  max_size : option Z;
  min_freq : Z;
  unknown_token : option pystr;
  padding_token : option pystr;
  bos_token : option pystr;
  eos_token : option pystr;
  token_to_idx : gmap pystr Z;
  idx_to_token : list pystr }.

(** The keyword arguments of a constructor call of the source: [None] is an
    argument the call leaves out, [Some None] is an explicit [None]. *)
Record kwargs := {
  kw_max_size : option (option Z);
  kw_min_freq : option Z;
  kw_unknown_token : option (option pystr);
  kw_padding_token : option (option pystr);
  kw_bos_token : option (option pystr);
  kw_eos_token : option (option pystr) }.

(** [Vocabulary()] *)
Definition no_kwargs : kwargs :=
  {| kw_max_size := None; kw_min_freq := None; kw_unknown_token := None;
     kw_padding_token := None; kw_bos_token := None; kw_eos_token := None |}.

(** What the spec leaves to the class: the defaults of the constructor (the
    default of a special token is a token, not [None]), the frequency pass
    of [fit] (the two mappings it computes for the receiver from its
    argument), the JSON form, and whether [from_json] returns the
    receiver. *)
Class Internals := {
  DEFAULT_MAX_SIZE : option Z;
  DEFAULT_MIN_FREQ : Z;
  DEFAULT_UNKNOWN_TOKEN : pystr;
  DEFAULT_PADDING_TOKEN : pystr;
  DEFAULT_BOS_TOKEN : pystr;
  DEFAULT_EOS_TOKEN : pystr;
  fit_mappings : t → pyval → result (gmap pystr Z * list pystr);
  dumps : t → pystr;
  loads : t → pystr → result t;
  from_json_returns_self : bool }.

Section Methods.
Context `{Internals} `{Sklearn}.

(** Modelled from the spec: the constructor of the missing class. A
    vocabulary is created empty; an argument left out takes its default. *)
Definition __init__ (kw : kwargs) : t :=
  {| max_size := default DEFAULT_MAX_SIZE (kw_max_size kw);
     min_freq := default DEFAULT_MIN_FREQ (kw_min_freq kw);
     unknown_token := default (Some DEFAULT_UNKNOWN_TOKEN) (kw_unknown_token kw);
     padding_token := default (Some DEFAULT_PADDING_TOKEN) (kw_padding_token kw);
     bos_token := default (Some DEFAULT_BOS_TOKEN) (kw_bos_token kw);
     eos_token := default (Some DEFAULT_EOS_TOKEN) (kw_eos_token kw);
     token_to_idx := ∅;
     idx_to_token := [] |}.

(** Modelled from the spec: [fit] of the missing class. It replaces the two
    mappings and leaves the configuration. *)
Definition fit (v : t) (data : pyval) : result t :=
  m ← fit_mappings v data;
  mret {| max_size := max_size v; min_freq := min_freq v;
          unknown_token := unknown_token v;
          padding_token := padding_token v;
          bos_token := bos_token v; eos_token := eos_token v;
          token_to_idx := m.1; idx_to_token := m.2 |}.

(** Modelled from the spec: the lookup of one token by [to_indices] of the
    missing class. A token has its index, else the index of the unknown
    token, else the lookup is a configuration error. *)
Definition to_index (v : t) (token : pystr) : result Z :=
  match token_to_idx v !! token with
  | Some i => Ok i
  | None =>
      match unknown_token v ≫= (token_to_idx v !!.) with
      | Some i => Ok i
      | None => Raise (Exn ConfigurationError None)
      end
  end.

(** Modelled from the spec: [to_indices] of the missing class maps a token
    sequence to an index sequence. *)
Definition to_indices (v : t) (tokens : list pystr) : result (list Z) :=
  mapM (to_index v) tokens.

(** Modelled from the spec: [to_json] of the missing class writes the JSON
    form of the vocabulary at the path. *)
Definition to_json (v : t) (p : path) : ST world unit :=
  write_text p (dumps v).

(** Modelled from the spec: [from_json] of the missing class reads the file
    and loads the receiver from it. The result is the receiver after the
    load, and what the call returns. *)
Definition from_json (v : t) (p : path) : ST world (t * option t) :=
  text ← open_read p;
  v' ← lift (loads v text);
  mret (v', if from_json_returns_self then Some v' else None).
End Methods.
End Vocabulary.

(** ** Constants and serialisation *)

(** [configs/constants.py] is not under src/: the names the builders import
    from it. *)
Class Constants := {
  INPUT_VOCAB_FILENAME : string;
  TAG_VOCAB_FILENAME : string;
  CLASS_VOCAB_FILENAME : string;
  TRAIN_DATASET_FILENAME : string;
  VALIDATION_DATASET_FILENAME : string;
  INSTANT_DATASET_FILENAME : string;
  RANDOM_SEED : Z }.

(** A numerized dataset: field name to index sequences. *)
Abbreviation dataset := (gmap string (list (list Z))).

(** [json.dump(obj, f, indent=4)]: the text written for a dataset. *)
Class JsonCodec := { json_dumps : dataset → pystr }.

Definition is_none {A} (o : option A) : bool :=
  match o with None => true | Some _ => false end.

(** ** [sklearn.model_selection.train_test_split] *)

Section TrainTestSplit.
Context `{Sklearn}.

(** [[a[i] for i in indices]] *)
Definition safe_indexing {A} (a : list A) (indices : list nat) : result (list A) :=
  mapM (fun i => match a !! i with
                 | Some x => Ok x
                 | None => Raise (Exn IndexError (Some "list index out of range"))
                 end) indices.

(** An integer [random_state] seeds a generator of its own; [None] draws
    from numpy's global one and advances it. *)
Definition draw_split (n : nat) (test_size : Q) (random_state : option Z)
  : ST world (list nat * list nat) := fun w =>
  match random_state with
  | Some seed => ((shuffle_split (rng_seed seed) n test_size).1, w)
  | None =>
      let '(r, g) := shuffle_split (np_random w) n test_size in
      (r, {| files := files w; dirs := dirs w; np_random := g |})
  end.

(** The arrays must have one length; each is indexed by the same train and
    test indices; the result lists train and test of each array in turn. *)
Definition train_test_split {A} (arrays : list (list A)) (test_size : Q)
    (random_state : option Z) : ST world (list (list A)) :=
  match arrays with
  | [] => raise ValueError (Some "At least one array required as input")
  | a0 :: _ =>
      if forallb (fun a => length a =? length a0)%nat arrays
      then
        '(train, test) ← draw_split (length a0) test_size random_state;
        lift (parts ← mapM (fun a =>
                              a_train ← safe_indexing a train;
                              a_test ← safe_indexing a test;
                              mret [a_train; a_test]) arrays;
              mret (List.concat parts))
      else raise ValueError
             (Some "Found input variables with inconsistent numbers of samples")
  end.
End TrainTestSplit.

(** ** [class DatasetBuilder] *)

Module DatasetBuilder.
Section Methods.
Context `{Vocabulary.Internals} `{Sklearn} `{JsonCodec}.

(** The method of the base class. *)
Definition _split_into_valid_and_train (input label : list pystr)
    (test_size : Q) (random_state : option Z)
  : ST world ((list pystr * list pystr) * (list pystr * list pystr)) :=
  raise NotImplementedError None.

Definition _splitify (data : list pystr) : list (list pystr) :=
  map str_split data.

(** [vocab.to_indices(s_d)], where [vocab] may hold [None]. *)
Definition vocab_to_indices (vocab : option Vocabulary.t) (s_d : list pystr)
  : result (list Z) :=
  match vocab with
  | Some v => Vocabulary.to_indices v s_d
  | None => Raise (Exn AttributeError
                     (Some "'NoneType' object has no attribute 'to_indices'"))
  end.

(** The list comprehension of [_numerize_from_text], element by element:
    the first call that raises ends it. *)
Fixpoint numerize_each (vocab : option Vocabulary.t)
    (splited_data : list (list pystr)) (done : list (list Z))
  : result (list (list Z)) :=
  match splited_data with
  | [] => Ok done
  | s_d :: rest =>
      match vocab_to_indices vocab s_d with
      | Ok indices => numerize_each vocab rest (done ++ [indices])
      | Raise e => Raise e
      end
  end.

Definition _numerize_from_text (data : list pystr) (vocab : option Vocabulary.t)
  : result (list (list Z)) :=
  let splited_data := _splitify data in
  numerize_each vocab splited_data [].

(** The loop of [_load_text]: [filelines] reads from the open file. The file
    is a text file, held decoded in [files], so that [readline] returns at
    every turn and the handler of the [try] is never entered. *)
Fixpoint read_lines (filelines : nat) (textfile : pystr) (dataset : list pystr)
  : list pystr :=
  match filelines with
  | O => dataset
  | S n =>
      let '(line, rest) := readline textfile in
      let textline := str_remove_nl (str_rstrip line) in
      read_lines n rest (dataset ++ [textline])
  end.

Definition _load_text (p : path) : ST world (list pystr) :=
  filelines ← get_filelines p;
  textfile ← open_read p;
  mret (read_lines filelines textfile []).

Definition _save_as_json (obj : dataset) (json_path : path) : ST world unit :=
  write_text json_path (json_dumps obj).

Definition _build_dataset_dir (dataset_dir : path) : ST world unit :=
  make_dir_if_not_exist dataset_dir.

(** [self._x.fit(data)] and [self._x.to_json(p)] on an attribute that
    holds a vocabulary or [None]. *)
Definition fit_attr {O} (get : O → option Vocabulary.t)
    (set : option Vocabulary.t → O → O) (data : pyval) : ST (O * world) unit :=
  s ← self;
  match get s with
  | Some v =>
      v' ← lift (Vocabulary.fit v data);
      set_self (set (Some v'))
  | None => raise AttributeError
              (Some "'NoneType' object has no attribute 'fit'")
  end.

Definition to_json_attr {O} (get : O → option Vocabulary.t) (p : path)
  : ST (O * world) unit :=
  s ← self;
  match get s with
  | Some v => in_world (Vocabulary.to_json v p)
  | None => raise AttributeError
              (Some "'NoneType' object has no attribute 'to_json'")
  end.
End Methods.
End DatasetBuilder.

(** The default [test_size=0.1] of the split methods. *)
Definition DEFAULT_TEST_SIZE : Q := 1 # 10.

(** ** Loaders *)

(** [NERDatasetFromJSONFile(path, limit_pad_len=..., enable_length=...)] and
    its SLU sibling, of [data/dataset.py], and torch's [DataLoader] are
    outside this development: a dataset and a loader are kept as the
    arguments of their construction, [None] for an argument the call leaves
    out. *)
Record json_dataset := {
  dataset_json_path : path;
  dataset_limit_pad_len : option Z;
  dataset_enable_length : option bool }.

Record torch_loader := {
  torch_dataset : json_dataset;
  torch_batch_size : Z;
  torch_shuffle : option bool;
  torch_num_workers : option Z;
  torch_drop_last : option bool }.

(** [l[0]] *)
Definition first_item {A} (l : list A) : result A :=
  match l with
  | x :: _ => Ok x
  | [] => Raise (Exn IndexError (Some "list index out of range"))
  end.

(** The two loaders of [build_data_loader], the same for both builders: the
    train loader over the first recorded train path, the validation loader
    over the first recorded validation path. *)
Definition loaders_over (train_data_path valid_data_path : list path)
    (batch_size limit_pad_len : Z) (enable_length : bool)
  : result (torch_loader * torch_loader) :=
  train_path ← first_item train_data_path;
  let train_dataset :=
    {| dataset_json_path := train_path;
       dataset_limit_pad_len := Some limit_pad_len;
       dataset_enable_length := Some enable_length |} in
  valid_path ← first_item valid_data_path;
  let valid_dataset :=
    {| dataset_json_path := valid_path;
       dataset_limit_pad_len := None;
       dataset_enable_length := None |} in
  let train_data_loader :=
    {| torch_dataset := train_dataset; torch_batch_size := batch_size;
       torch_shuffle := Some true; torch_num_workers := Some 4;
       torch_drop_last := Some true |} in
  let valid_data_loader :=
    {| torch_dataset := valid_dataset; torch_batch_size := 1;
       torch_shuffle := None; torch_num_workers := None;
       torch_drop_last := None |} in
  mret (train_data_loader, valid_data_loader).

(** ** [class NERDatasetBuilder(DatasetBuilder)] *)

Module NERDatasetBuilder.
Import DatasetBuilder.

(** The attributes of a builder. [_dataset_dir] is a [Path], as its default
    is; the two lists of paths grow by one at each dataset built. *)
Record t := {
  _input_path : path;
  _label_path : path;
  _file_type : pystr;
  _raw_input : list pystr;
  _raw_label : list pystr;
  _input_vocab : option Vocabulary.t;
  _label_vocab : option Vocabulary.t;
  _dataset_dir : path;
  _train_data_path : list path;
  _valid_data_path : list path }.

Definition set_input_vocab (v : option Vocabulary.t) (s : t) : t :=
  {| _input_path := _input_path s; _label_path := _label_path s;
     _file_type := _file_type s; _raw_input := _raw_input s;
     _raw_label := _raw_label s; _input_vocab := v;
     _label_vocab := _label_vocab s; _dataset_dir := _dataset_dir s;
     _train_data_path := _train_data_path s;
     _valid_data_path := _valid_data_path s |}.

Definition set_label_vocab (v : option Vocabulary.t) (s : t) : t :=
  {| _input_path := _input_path s; _label_path := _label_path s;
     _file_type := _file_type s; _raw_input := _raw_input s;
     _raw_label := _raw_label s; _input_vocab := _input_vocab s;
     _label_vocab := v; _dataset_dir := _dataset_dir s;
     _train_data_path := _train_data_path s;
     _valid_data_path := _valid_data_path s |}.

Definition append_train_data_path (p : path) (s : t) : t :=
  {| _input_path := _input_path s; _label_path := _label_path s;
     _file_type := _file_type s; _raw_input := _raw_input s;
     _raw_label := _raw_label s; _input_vocab := _input_vocab s;
     _label_vocab := _label_vocab s; _dataset_dir := _dataset_dir s;
     _train_data_path := _train_data_path s ++ [p];
     _valid_data_path := _valid_data_path s |}.

Definition append_valid_data_path (p : path) (s : t) : t :=
  {| _input_path := _input_path s; _label_path := _label_path s;
     _file_type := _file_type s; _raw_input := _raw_input s;
     _raw_label := _raw_label s; _input_vocab := _input_vocab s;
     _label_vocab := _label_vocab s; _dataset_dir := _dataset_dir s;
     _train_data_path := _train_data_path s;
     _valid_data_path := _valid_data_path s ++ [p] |}.

(** The keyword arguments of the two constructor calls of
    [build_vocabulary]. *)
Definition input_vocab_kwargs (max_size : option Z) (min_freq : Z)
  : Vocabulary.kwargs :=
  {| Vocabulary.kw_max_size := Some max_size;
     Vocabulary.kw_min_freq := Some min_freq;
     Vocabulary.kw_unknown_token := None;
     Vocabulary.kw_padding_token := None;
     Vocabulary.kw_bos_token := Some None;
     Vocabulary.kw_eos_token := Some None |}.

Definition label_vocab_kwargs : Vocabulary.kwargs :=
  {| Vocabulary.kw_max_size := None;
     Vocabulary.kw_min_freq := None;
     Vocabulary.kw_unknown_token := Some None;
     Vocabulary.kw_padding_token := None;
     Vocabulary.kw_bos_token := None;
     Vocabulary.kw_eos_token := None |}.

Section Methods.
Context `{Vocabulary.Internals} `{Sklearn} `{JsonCodec} `{Constants}.

Definition __init__ (input_path label_path : path) (file_type : pystr)
    (input_vocab label_vocab : option Vocabulary.t) (dataset_dir : path)
  : ST world t :=
  if bool_decide (file_type = py "text")
  then
    raw_input ← _load_text input_path;
    raw_label ← _load_text label_path;
    _build_dataset_dir dataset_dir;;
    mret {| _input_path := input_path; _label_path := label_path;
            _file_type := file_type; _raw_input := raw_input;
            _raw_label := raw_label; _input_vocab := input_vocab;
            _label_vocab := label_vocab; _dataset_dir := dataset_dir;
            _train_data_path := []; _valid_data_path := [] |}
  else raise NotImplementedError None.

Definition build_vocabulary (max_size : option Z) (min_freq : Z)
  : ST (t * world) unit :=
  s ← self;
  let input_vocab_path := _dataset_dir s // INPUT_VOCAB_FILENAME in
  let label_vocab_path := _dataset_dir s // TAG_VOCAB_FILENAME in
  set_self (set_input_vocab
              (Some (Vocabulary.__init__ (input_vocab_kwargs max_size min_freq))));;
  set_self (set_label_vocab (Some (Vocabulary.__init__ label_vocab_kwargs)));;
  let input_data := _splitify (_raw_input s) in
  let label_data := _splitify (_raw_label s) in
  fit_attr _input_vocab set_input_vocab (str_list_list input_data);;
  fit_attr _label_vocab set_label_vocab (str_list_list label_data);;
  to_json_attr _input_vocab input_vocab_path;;
  to_json_attr _label_vocab label_vocab_path.

Definition _split_into_valid_and_train (input label : list pystr)
    (test_size : Q) (random_state : option Z)
  : ST world ((list pystr * list pystr) * (list pystr * list pystr)) :=
  parts ← train_test_split [input; label] test_size random_state;
  match parts with
  | [input_train; input_test; label_train; label_test] =>
      mret ((input_train, label_train), (input_test, label_test))
  | _ => raise ValueError (Some "not enough values to unpack")
  end.

Definition build_trainable_dataset (train_data_path valid_data_path : option path)
  : ST (t * world) unit :=
  s ← self;
  if is_none (_input_vocab s) || is_none (_label_vocab s)
  then raise ValueError None
  else
    let train_data_path :=
      match train_data_path with
      | None => _dataset_dir s // TRAIN_DATASET_FILENAME
      | Some p => p
      end in
    let valid_data_path :=
      match valid_data_path with
      | None => _dataset_dir s // VALIDATION_DATASET_FILENAME
      | Some p => p
      end in
    '(train_raw_data, valid_raw_data) ←
      in_world (_split_into_valid_and_train (_raw_input s) (_raw_label s)
                  DEFAULT_TEST_SIZE (Some RANDOM_SEED));
    train_inputs ← lift (_numerize_from_text train_raw_data.1 (_input_vocab s));
    train_entities ← lift (_numerize_from_text train_raw_data.2 (_label_vocab s));
    let train_data : dataset :=
      <["entities" := train_entities]> (<["inputs" := train_inputs]> ∅) in
    valid_inputs ← lift (_numerize_from_text valid_raw_data.1 (_input_vocab s));
    valid_entities ← lift (_numerize_from_text valid_raw_data.2 (_label_vocab s));
    let valid_data : dataset :=
      <["entities" := valid_entities]> (<["inputs" := valid_inputs]> ∅) in
    in_world (_save_as_json train_data train_data_path);;
    in_world (_save_as_json valid_data valid_data_path);;
    set_self (append_train_data_path train_data_path);;
    set_self (append_valid_data_path valid_data_path).

Definition build_data_loader (batch_size limit_pad_len : Z) (enable_length : bool)
  : ST (t * world) (torch_loader * torch_loader) :=
  s ← self;
  lift (loaders_over (_train_data_path s) (_valid_data_path s)
          batch_size limit_pad_len enable_length).
End Methods.
End NERDatasetBuilder.

(** [DataLoader(SLUDatasetFromJSONFile(data_path), batch_size=1)]: the loader
    is outside this development and is kept as the arguments of its
    construction. *)
Record data_loader := { loader_json_path : path; loader_batch_size : Z }.

(** ** [class SLUDatasetBuilder(DatasetBuilder)] *)

Module SLUDatasetBuilder.
Import DatasetBuilder.

(** The attributes of a builder: those of the NER builder and the class
    stream with its vocabulary. *)
Record t := {
  _input_path : path;
  _label_path : path;
  _class_path : path;
  _file_type : pystr;
  _raw_input : list pystr;
  _raw_label : list pystr;
  _raw_class : list pystr;
  _input_vocab : option Vocabulary.t;
  _label_vocab : option Vocabulary.t;
  _class_vocab : option Vocabulary.t;
  _dataset_dir : path;
  _train_data_path : list path;
  _valid_data_path : list path }.

Definition set_input_vocab (v : option Vocabulary.t) (s : t) : t :=
  {| _input_path := _input_path s; _label_path := _label_path s;
     _class_path := _class_path s; _file_type := _file_type s;
     _raw_input := _raw_input s; _raw_label := _raw_label s;
     _raw_class := _raw_class s; _input_vocab := v;
     _label_vocab := _label_vocab s; _class_vocab := _class_vocab s;
     _dataset_dir := _dataset_dir s;
     _train_data_path := _train_data_path s;
     _valid_data_path := _valid_data_path s |}.

Definition set_label_vocab (v : option Vocabulary.t) (s : t) : t :=
  {| _input_path := _input_path s; _label_path := _label_path s;
     _class_path := _class_path s; _file_type := _file_type s;
     _raw_input := _raw_input s; _raw_label := _raw_label s;
     _raw_class := _raw_class s; _input_vocab := _input_vocab s;
     _label_vocab := v; _class_vocab := _class_vocab s;
     _dataset_dir := _dataset_dir s;
     _train_data_path := _train_data_path s;
     _valid_data_path := _valid_data_path s |}.

Definition set_class_vocab (v : option Vocabulary.t) (s : t) : t :=
  {| _input_path := _input_path s; _label_path := _label_path s;
     _class_path := _class_path s; _file_type := _file_type s;
     _raw_input := _raw_input s; _raw_label := _raw_label s;
     _raw_class := _raw_class s; _input_vocab := _input_vocab s;
     _label_vocab := _label_vocab s; _class_vocab := v;
     _dataset_dir := _dataset_dir s;
     _train_data_path := _train_data_path s;
     _valid_data_path := _valid_data_path s |}.

Definition append_train_data_path (p : path) (s : t) : t :=
  {| _input_path := _input_path s; _label_path := _label_path s;
     _class_path := _class_path s; _file_type := _file_type s;
     _raw_input := _raw_input s; _raw_label := _raw_label s;
     _raw_class := _raw_class s; _input_vocab := _input_vocab s;
     _label_vocab := _label_vocab s; _class_vocab := _class_vocab s;
     _dataset_dir := _dataset_dir s;
     _train_data_path := _train_data_path s ++ [p];
     _valid_data_path := _valid_data_path s |}.

Definition append_valid_data_path (p : path) (s : t) : t :=
  {| _input_path := _input_path s; _label_path := _label_path s;
     _class_path := _class_path s; _file_type := _file_type s;
     _raw_input := _raw_input s; _raw_label := _raw_label s;
     _raw_class := _raw_class s; _input_vocab := _input_vocab s;
     _label_vocab := _label_vocab s; _class_vocab := _class_vocab s;
     _dataset_dir := _dataset_dir s;
     _train_data_path := _train_data_path s;
     _valid_data_path := _valid_data_path s ++ [p] |}.

Definition input_vocab_kwargs (max_size : option Z) (min_freq : Z)
  : Vocabulary.kwargs :=
  {| Vocabulary.kw_max_size := Some max_size;
     Vocabulary.kw_min_freq := Some min_freq;
     Vocabulary.kw_unknown_token := None;
     Vocabulary.kw_padding_token := None;
     Vocabulary.kw_bos_token := Some None;
     Vocabulary.kw_eos_token := Some None |}.

Definition label_vocab_kwargs : Vocabulary.kwargs :=
  {| Vocabulary.kw_max_size := None;
     Vocabulary.kw_min_freq := None;
     Vocabulary.kw_unknown_token := Some None;
     Vocabulary.kw_padding_token := None;
     Vocabulary.kw_bos_token := None;
     Vocabulary.kw_eos_token := None |}.

Definition class_vocab_kwargs : Vocabulary.kwargs :=
  {| Vocabulary.kw_max_size := None;
     Vocabulary.kw_min_freq := None;
     Vocabulary.kw_unknown_token := Some None;
     Vocabulary.kw_padding_token := Some None;
     Vocabulary.kw_bos_token := Some None;
     Vocabulary.kw_eos_token := Some None |}.

(** What [build_vocabulary] hands to the three [fit] calls: the input and
    label lines are tokenized, the class lines are passed as they are. *)
Definition input_data (s : t) : pyval := str_list_list (_splitify (_raw_input s)).
Definition label_data (s : t) : pyval := str_list_list (_splitify (_raw_label s)).
Definition class_data (s : t) : pyval := str_list (_raw_class s).

Section Methods.
Context `{Vocabulary.Internals} `{Sklearn} `{JsonCodec} `{Constants}.

Definition __init__ (input_path label_path class_path : path)
    (file_type : pystr) (input_vocab label_vocab class_vocab : option Vocabulary.t)
    (dataset_dir : path) : ST world t :=
  if bool_decide (file_type = py "text")
  then
    raw_input ← _load_text input_path;
    raw_label ← _load_text label_path;
    raw_class ← _load_text class_path;
    _build_dataset_dir dataset_dir;;
    mret {| _input_path := input_path; _label_path := label_path;
            _class_path := class_path; _file_type := file_type;
            _raw_input := raw_input; _raw_label := raw_label;
            _raw_class := raw_class; _input_vocab := input_vocab;
            _label_vocab := label_vocab; _class_vocab := class_vocab;
            _dataset_dir := dataset_dir;
            _train_data_path := []; _valid_data_path := [] |}
  else raise NotImplementedError None.

Definition build_vocabulary (max_size : option Z) (min_freq : Z)
  : ST (t * world) unit :=
  s ← self;
  let input_vocab_path := _dataset_dir s // INPUT_VOCAB_FILENAME in
  let label_vocab_path := _dataset_dir s // TAG_VOCAB_FILENAME in
  let class_vocab_path := _dataset_dir s // CLASS_VOCAB_FILENAME in
  set_self (set_input_vocab
              (Some (Vocabulary.__init__ (input_vocab_kwargs max_size min_freq))));;
  set_self (set_label_vocab (Some (Vocabulary.__init__ label_vocab_kwargs)));;
  set_self (set_class_vocab (Some (Vocabulary.__init__ class_vocab_kwargs)));;
  fit_attr _input_vocab set_input_vocab (input_data s);;
  fit_attr _label_vocab set_label_vocab (label_data s);;
  fit_attr _class_vocab set_class_vocab (class_data s);;
  to_json_attr _input_vocab input_vocab_path;;
  to_json_attr _label_vocab label_vocab_path;;
  to_json_attr _class_vocab class_vocab_path.

Definition _split_into_valid_and_train (input label cls : list pystr)
    (test_size : Q) (random_state : option Z)
  : ST world ((list pystr * list pystr * list pystr)
              * (list pystr * list pystr * list pystr)) :=
  parts ← train_test_split [input; label; cls] test_size random_state;
  match parts with
  | [input_train; input_test; label_train; label_test; class_train; class_test] =>
      mret ((input_train, label_train, class_train),
            (input_test, label_test, class_test))
  | _ => raise ValueError (Some "not enough values to unpack")
  end.

Definition build_trainable_dataset
    (train_data_save_path valid_data_save_path : option path)
  : ST (t * world) unit :=
  s ← self;
  if is_none (_input_vocab s) || is_none (_label_vocab s)
  then raise ValueError None
  else
    let train_data_save_path :=
      match train_data_save_path with
      | None => _dataset_dir s // TRAIN_DATASET_FILENAME
      | Some p => p
      end in
    let valid_data_save_path :=
      match valid_data_save_path with
      | None => _dataset_dir s // VALIDATION_DATASET_FILENAME
      | Some p => p
      end in
    '(train_raw_data, valid_raw_data) ←
      in_world (_split_into_valid_and_train (_raw_input s) (_raw_label s)
                  (_raw_class s) DEFAULT_TEST_SIZE (Some RANDOM_SEED));
    train_inputs ← lift (_numerize_from_text train_raw_data.1.1 (_input_vocab s));
    train_slots ← lift (_numerize_from_text train_raw_data.1.2 (_label_vocab s));
    train_intents ← lift (_numerize_from_text train_raw_data.2 (_class_vocab s));
    let train_data : dataset :=
      <["intents" := train_intents]>
        (<["slots" := train_slots]> (<["inputs" := train_inputs]> ∅)) in
    valid_inputs ← lift (_numerize_from_text valid_raw_data.1.1 (_input_vocab s));
    valid_slots ← lift (_numerize_from_text valid_raw_data.1.2 (_label_vocab s));
    valid_intents ← lift (_numerize_from_text valid_raw_data.2 (_class_vocab s));
    let valid_data : dataset :=
      <["intents" := valid_intents]>
        (<["slots" := valid_slots]> (<["inputs" := valid_inputs]> ∅)) in
    in_world (_save_as_json train_data train_data_save_path);;
    in_world (_save_as_json valid_data valid_data_save_path);;
    set_self (append_train_data_path train_data_save_path);;
    set_self (append_valid_data_path valid_data_save_path).

Definition build_instant_data_loader (input_path label_path class_path : path)
    (data_path : option path) : ST (t * world) data_loader :=
  s ← self;
  let data_path :=
    match data_path with
    | None => _dataset_dir s // INSTANT_DATASET_FILENAME
    | Some p => p
    end in
  input_data ← in_world (_load_text input_path);
  label_data ← in_world (_load_text label_path);
  class_data ← in_world (_load_text class_path);
  inputs ← lift (_numerize_from_text input_data (_input_vocab s));
  slots ← lift (_numerize_from_text label_data (_label_vocab s));
  intents ← lift (_numerize_from_text class_data (_class_vocab s));
  let instant_data : dataset :=
    <["intents" := intents]> (<["slots" := slots]> (<["inputs" := inputs]> ∅)) in
  in_world (_save_as_json instant_data data_path);;
  mret {| loader_json_path := data_path; loader_batch_size := 1 |}.

Definition build_data_loader (batch_size limit_pad_len : Z) (enable_length : bool)
  : ST (t * world) (torch_loader * torch_loader) :=
  s ← self;
  lift (loaders_over (_train_data_path s) (_valid_data_path s)
          batch_size limit_pad_len enable_length).
End Methods.
End SLUDatasetBuilder.

(** ** [data_manager/utils.py] *)

(** The module takes [Vocabulary] from [data_manager/vocab.py], which is not
    under src/ either: it is the class modelled from the spec above. *)

(** [Path(s)]: the components of [s] between slashes; a leading slash is the
    root component, empty components and single dots are dropped. *)
Fixpoint path_components (cur : string) (s : string) : list string :=
  match s with
  | EmptyString => [cur]
  | String c s' =>
      if Ascii.eqb c "/"%char then cur :: path_components EmptyString s'
      else path_components (cur +:+ String c EmptyString) s'
  end.

Definition Path (s : string) : path :=
  (match s with
   | String c _ => if Ascii.eqb c "/"%char then ["/"] else []
   | EmptyString => []
   end)
  ++ filter (fun c => c ≠ EmptyString ∧ c ≠ ".") (path_components EmptyString s).

(** The [dataset_configs] dictionary: its path entries by key, and the entry
    ['vocab_min_freq'], an integer, when it is there. *)
Record dataset_configs := {
  cfg_paths : gmap string string;
  cfg_vocab_min_freq : option Z }.

(** The [deploy_path] argument of [create_builder], which the builders take
    as their [dataset_dir]: a [str], as the default ['./tmp'] is, or a
    [Path]. *)
Inductive dir_arg :=
| DirStr (s : string)
| DirPath (p : path).

(** Modelled from the spec: [data_manager/builder.py], the module from which
    [utils.py] imports its three builder classes, is not under src/; the
    classes of [data/builder.py] above are those of another module. The
    spec gives every task a builder that is constructed from its file paths
    and a destination directory and then goes through [build_vocabulary]
    and [build_trainable_dataset]. Of each class: its constructor, with the
    arguments [create_builder] passes (the file paths, [dataset_dir],
    [input_vocab]), and the two methods, [None] for a [min_freq] left out.
    What they do is left open. *)
Class BuilderClasses `{Sklearn} := {
  ner_builder : Type;
  ner_init : path → path → dir_arg → option Vocabulary.t → ST world ner_builder;
  ner_build_vocabulary : option Z → ST (ner_builder * world) unit;
  ner_build_trainable_dataset : ST (ner_builder * world) unit;
  ws_builder : Type;
  ws_init : path → dir_arg → option Vocabulary.t → ST world ws_builder;
  ws_build_vocabulary : option Z → ST (ws_builder * world) unit;
  ws_build_trainable_dataset : ST (ws_builder * world) unit;
  slu_builder : Type;
  slu_init : path → path → path → dir_arg → option Vocabulary.t
             → ST world slu_builder;
  slu_build_vocabulary : option Z → ST (slu_builder * world) unit;
  slu_build_trainable_dataset : ST (slu_builder * world) unit }.

(** The object [create_builder] holds in [builder]: an instance of one of
    the three classes. *)
Inductive builder `{BuilderClasses} :=
| NERBuilder (b : ner_builder)
| WordSegmentationBuilder (b : ws_builder)
| SLUBuilder (b : slu_builder).

Section Utils.
Context `{Vocabulary.Internals} `{BuilderClasses} `{JsonCodec} `{Constants}.

(** [dataset_configs[key]] *)
Definition config_get (cfg : dataset_configs) (key : string) : ST world string :=
  match cfg_paths cfg !! key with
  | Some v => mret v
  | None => raise KeyError (Some key)
  end.

Definition load_vocab_file (file_path : path) : ST world (option Vocabulary.t) :=
  r ← Vocabulary.from_json (Vocabulary.__init__ Vocabulary.no_kwargs) file_path;
  mret r.2.

(** [builder.build_vocabulary(min_freq=...)], or [builder.build_vocabulary()]
    when [min_freq] is [None], and [builder.build_trainable_dataset()], on
    whichever builder was made. *)
Definition builder_build_vocabulary (min_freq : option Z) (b : builder)
  : ST world builder :=
  match b with
  | NERBuilder o =>
      r ← call (ner_build_vocabulary min_freq) o;
      mret (NERBuilder r.2)
  | WordSegmentationBuilder o =>
      r ← call (ws_build_vocabulary min_freq) o;
      mret (WordSegmentationBuilder r.2)
  | SLUBuilder o =>
      r ← call (slu_build_vocabulary min_freq) o;
      mret (SLUBuilder r.2)
  end.

Definition builder_build_trainable_dataset (b : builder) : ST world builder :=
  match b with
  | NERBuilder o =>
      r ← call ner_build_trainable_dataset o;
      mret (NERBuilder r.2)
  | WordSegmentationBuilder o =>
      r ← call ws_build_trainable_dataset o;
      mret (WordSegmentationBuilder r.2)
  | SLUBuilder o =>
      r ← call slu_build_trainable_dataset o;
      mret (SLUBuilder r.2)
  end.

Definition create_builder (type : pystr) (cfg : dataset_configs)
    (deploy_path : dir_arg) : ST world builder :=
  input_vocab ←
    (if bool_decide (is_Some (cfg_paths cfg !! "vocab_path"))
     then
       vocab_path ← config_get cfg "vocab_path";
       load_vocab_file (Path vocab_path)
     else mret None);
  b ←
    (if bool_decide (type = py "ner")
     then
       input ← config_get cfg "input";
       label ← config_get cfg "label";
       o ← ner_init (Path input) (Path label) deploy_path input_vocab;
       mret (NERBuilder o)
     else if bool_decide (type = py "word_segment")
     then
       input ← config_get cfg "input";
       o ← ws_init (Path input) deploy_path input_vocab;
       mret (WordSegmentationBuilder o)
     else if bool_decide (type = py "slu")
     then
       input ← config_get cfg "input";
       slots ← config_get cfg "slots";
       intents ← config_get cfg "intents";
       o ← slu_init (Path input) (Path slots) (Path intents) deploy_path
             input_vocab;
       mret (SLUBuilder o)
     else raise NotImplementedError None);
  b ← builder_build_vocabulary (cfg_vocab_min_freq cfg) b;
  b ← builder_build_trainable_dataset b;
  mret b.

Definition load_vocab_dir (type : pystr) (dir_path : path)
  : ST world (gmap string Vocabulary.t) :=
  if bool_decide (type = py "ner") || bool_decide (type = py "word_segment")
  then
    let input_vocab_path := dir_path // "dataset" // INPUT_VOCAB_FILENAME in
    let label_vocab_path := dir_path // "dataset" // TAG_VOCAB_FILENAME in
    let input_vocab := Vocabulary.__init__ Vocabulary.no_kwargs in
    let label_vocab := Vocabulary.__init__ Vocabulary.no_kwargs in
    loaded ← Vocabulary.from_json input_vocab input_vocab_path;
    let input_vocab := loaded.1 in
    loaded ← Vocabulary.from_json label_vocab label_vocab_path;
    let label_vocab := loaded.1 in
    let ret : gmap string Vocabulary.t :=
      <["label_vocab" := label_vocab]> (<["input_vocab" := input_vocab]> ∅) in
    mret ret
  else if bool_decide (type = py "slu")
  then
    let input_vocab_path := dir_path // "dataset" // INPUT_VOCAB_FILENAME in
    let label_vocab_path := dir_path // "dataset" // TAG_VOCAB_FILENAME in
    let class_vocab_path := dir_path // "dataset" // CLASS_VOCAB_FILENAME in
    let input_vocab := Vocabulary.__init__ Vocabulary.no_kwargs in
    let label_vocab := Vocabulary.__init__ Vocabulary.no_kwargs in
    let class_vocab := Vocabulary.__init__ Vocabulary.no_kwargs in
    loaded ← Vocabulary.from_json input_vocab input_vocab_path;
    let input_vocab := loaded.1 in
    loaded ← Vocabulary.from_json label_vocab label_vocab_path;
    let label_vocab := loaded.1 in
    loaded ← Vocabulary.from_json class_vocab class_vocab_path;
    let class_vocab := loaded.1 in
    let ret : gmap string Vocabulary.t :=
      <["class_vocab" := class_vocab]>
        (<["label_vocab" := label_vocab]> (<["input_vocab" := input_vocab]> ∅)) in
    mret ret
  else raise ValueError None.
End Utils.

(** ** A concrete set of collaborators, for running the builders *)

Module Demo.

(** A generator that is a counter; the split puts the first
    [ceil(test_size * n)] positions of a rotation of [0..n-1] in the test
    part and refuses to leave the train part empty. *)
Definition demo_shuffle (g : nat) (n : nat) (test_size : Q)
  : result (list nat * list nat) * nat :=
  let n_test := Z.to_nat (Qceiling (test_size * inject_Z (Z.of_nat n))%Q) in
  let perm := map (fun i => (i + g) mod n)%nat (seq 0 n) in
  (if (n_test <? n)%nat
   then Ok (drop n_test perm, take n_test perm)
   else Raise (Exn ValueError (Some "the resulting train set will be empty")),
   S g).

Definition sklearn : Sklearn :=
  {| rng := nat; rng_seed := Z.to_nat; shuffle_split := demo_shuffle |}.

Definition constants : Constants :=
  {| INPUT_VOCAB_FILENAME := "input_vocab.json";
     TAG_VOCAB_FILENAME := "tag_vocab.json";
     CLASS_VOCAB_FILENAME := "class_vocab.json";
     TRAIN_DATASET_FILENAME := "train_dataset.json";
     VALIDATION_DATASET_FILENAME := "valid_dataset.json";
     INSTANT_DATASET_FILENAME := "instant_dataset.json";
     RANDOM_SEED := 49 |}.

(** The strings of a [fit] argument, in order. *)
Fixpoint flatten (v : pyval) : list pystr :=
  match v with
  | VStr s => [s]
  | VList l => List.concat (map flatten l)
  end.

Fixpoint index_from (i : Z) (tokens : list pystr) : gmap pystr Z :=
  match tokens with
  | [] => ∅
  | t :: rest => <[t := i]> (index_from (i + 1) rest)
  end.

Definition specials (v : Vocabulary.t) : list pystr :=
  omap id [Vocabulary.unknown_token v; Vocabulary.padding_token v;
           Vocabulary.bos_token v; Vocabulary.eos_token v].

(** A fitting pass without frequencies: the special tokens, then the
    tokens, each once, in the order of their last occurrences. *)
Definition demo_fit (v : Vocabulary.t) (data : pyval)
  : result (gmap pystr Z * list pystr) :=
  let tokens := remove_dups (specials v ++ flatten data) in
  Ok (index_from 0 tokens, tokens).

(** One token a line. *)
Definition demo_dumps (v : Vocabulary.t) : pystr :=
  List.concat (map (fun t => t ++ [NL]) (Vocabulary.idx_to_token v)).

Definition demo_loads (v : Vocabulary.t) (text : pystr) : result Vocabulary.t :=
  let tokens := map str_rstrip (file_lines text) in
  Ok {| Vocabulary.max_size := Vocabulary.max_size v;
        Vocabulary.min_freq := Vocabulary.min_freq v;
        Vocabulary.unknown_token := Vocabulary.unknown_token v;
        Vocabulary.padding_token := Vocabulary.padding_token v;
        Vocabulary.bos_token := Vocabulary.bos_token v;
        Vocabulary.eos_token := Vocabulary.eos_token v;
        Vocabulary.token_to_idx := index_from 0 tokens;
        Vocabulary.idx_to_token := tokens |}.

Definition internals : Vocabulary.Internals :=
  {| Vocabulary.DEFAULT_MAX_SIZE := None;
     Vocabulary.DEFAULT_MIN_FREQ := 1;
     Vocabulary.DEFAULT_UNKNOWN_TOKEN := py "<unk>";
     Vocabulary.DEFAULT_PADDING_TOKEN := py "<pad>";
     Vocabulary.DEFAULT_BOS_TOKEN := py "<bos>";
     Vocabulary.DEFAULT_EOS_TOKEN := py "<eos>";
     Vocabulary.fit_mappings := demo_fit;
     Vocabulary.dumps := demo_dumps;
     Vocabulary.loads := demo_loads;
     Vocabulary.from_json_returns_self := true |}.

(** A dataset as text: a field a line, the field name, then each index as
    one code point with a space after each sequence. *)
Definition demo_json (d : dataset) : pystr :=
  List.concat
    (map (fun kv : string * list (list Z) =>
            py kv.1
            ++ List.concat (map (fun l => map Z.to_N l ++ [32%N]) kv.2)
            ++ [NL])
         (map_to_list d)).

Definition json : JsonCodec := {| json_dumps := demo_json |}.

(** Builder classes that do nothing: the runs of [create_builder] below end
    before a builder is made. *)
Definition builders : @BuilderClasses sklearn :=
  {| ner_builder := unit;
     ner_init := fun _ _ _ _ => mret tt;
     ner_build_vocabulary := fun _ => mret tt;
     ner_build_trainable_dataset := mret tt;
     ws_builder := unit;
     ws_init := fun _ _ _ => mret tt;
     ws_build_vocabulary := fun _ => mret tt;
     ws_build_trainable_dataset := mret tt;
     slu_builder := unit;
     slu_init := fun _ _ _ _ _ => mret tt;
     slu_build_vocabulary := fun _ => mret tt;
     slu_build_trainable_dataset := mret tt |}.

Definition empty_world : @world sklearn :=
  @World sklearn ∅ ∅ 0%nat.

(** A world with one text file whose first line ends in a space. *)
Definition spaced_text : pystr := py "a " ++ [NL] ++ [NL] ++ py "b c".

Definition spaced_world : @world sklearn :=
  @World sklearn {[ ["input.txt"] := spaced_text ]} ∅ 0%nat.

(** An SLU builder on two examples, with the input and label vocabularies
    fitted and the class vocabulary left at [None]. *)
Definition fitted (kw : Vocabulary.kwargs) (data : pyval) : option Vocabulary.t :=
  match @Vocabulary.fit internals (@Vocabulary.__init__ internals kw) data with
  | Ok v => Some v
  | Raise _ => None
  end.

Definition slu_without_class_vocab : SLUDatasetBuilder.t :=
  let raw_input := [py "book a flight"; py "rain today"] in
  let raw_label := [py "O O B"; py "B O"] in
  {| SLUDatasetBuilder._input_path := ["input.txt"];
     SLUDatasetBuilder._label_path := ["label.txt"];
     SLUDatasetBuilder._class_path := ["class.txt"];
     SLUDatasetBuilder._file_type := py "text";
     SLUDatasetBuilder._raw_input := raw_input;
     SLUDatasetBuilder._raw_label := raw_label;
     SLUDatasetBuilder._raw_class := [py "flight"; py "weather"];
     SLUDatasetBuilder._input_vocab :=
       fitted (SLUDatasetBuilder.input_vocab_kwargs None 1)
              (str_list_list (DatasetBuilder._splitify raw_input));
     SLUDatasetBuilder._label_vocab :=
       fitted SLUDatasetBuilder.label_vocab_kwargs
              (str_list_list (DatasetBuilder._splitify raw_label));
     SLUDatasetBuilder._class_vocab := None;
     SLUDatasetBuilder._dataset_dir := ["dataset"; "slu"];
     SLUDatasetBuilder._train_data_path := [];
     SLUDatasetBuilder._valid_data_path := [] |}.

(** A NER builder straight from its constructor: no vocabulary yet. *)
Definition ner_without_vocab : NERDatasetBuilder.t :=
  {| NERDatasetBuilder._input_path := ["input.txt"];
     NERDatasetBuilder._label_path := ["label.txt"];
     NERDatasetBuilder._file_type := py "text";
     NERDatasetBuilder._raw_input := [py "a b c"; py "b c"];
     NERDatasetBuilder._raw_label := [py "O O B"; py "O B"];
     NERDatasetBuilder._input_vocab := None;
     NERDatasetBuilder._label_vocab := None;
     NERDatasetBuilder._dataset_dir := ["dataset"; "ner"];
     NERDatasetBuilder._train_data_path := [];
     NERDatasetBuilder._valid_data_path := [] |}.

(** A vocabulary fitted on the two input lines of the builders above. *)
Definition example_vocab : Vocabulary.t :=
  let v := @Vocabulary.__init__ internals (SLUDatasetBuilder.input_vocab_kwargs None 1) in
  match @Vocabulary.fit internals v
          (str_list_list (DatasetBuilder._splitify
                            [py "book a flight"; py "rain today"])) with
  | Ok v' => v'
  | Raise _ => v
  end.

(** The label and the class vocabulary fitted as [build_vocabulary] of the
    SLU builder fits them on these two examples. *)
Definition example_label_vocab : Vocabulary.t :=
  let v := @Vocabulary.__init__ internals SLUDatasetBuilder.label_vocab_kwargs in
  match @Vocabulary.fit internals v
          (str_list_list (DatasetBuilder._splitify [py "O O B"; py "B O"])) with
  | Ok v' => v'
  | Raise _ => v
  end.

Definition example_class_vocab : Vocabulary.t :=
  let v := @Vocabulary.__init__ internals SLUDatasetBuilder.class_vocab_kwargs in
  match @Vocabulary.fit internals v
          (str_list [py "flight"; py "weather"]) with
  | Ok v' => v'
  | Raise _ => v
  end.

(** A world with the three vocabulary files of a model directory. *)
Definition vocab_world : @world sklearn :=
  @World sklearn
    {[ ["model"; "dataset"; "input_vocab.json"] := py "<unk>" ++ [NL] ++ py "rain";
       ["model"; "dataset"; "tag_vocab.json"] := py "O" ++ [NL] ++ py "B";
       ["model"; "dataset"; "class_vocab.json"] := py "flight" ++ [NL] ++ py "weather" ]}
    {[ ["model"]; ["model"; "dataset"] ]} 0%nat.

(** The same directory without its class vocabulary file. *)
Definition classless_world : @world sklearn :=
  @World sklearn
    {[ ["model"; "dataset"; "input_vocab.json"] := py "<unk>" ++ [NL] ++ py "rain";
       ["model"; "dataset"; "tag_vocab.json"] := py "O" ++ [NL] ++ py "B" ]}
    {[ ["model"]; ["model"; "dataset"] ]} 0%nat.

(** A configuration without a vocabulary file. *)
Definition example_configs : dataset_configs :=
  {| cfg_paths := {[ "input" := "input.txt"; "label" := "label.txt" ]};
     cfg_vocab_min_freq := None |}.

(** The lines, the partitions and the worlds of the runs. *)
Definition some_lines : list pystr :=
  [py "book a flight"; []; py "  "; py "snow"].

Definition other_world : @world sklearn := @World sklearn ∅ ∅ 7%nat.

Definition first_example : list pystr * list pystr * list pystr :=
  ([py "book a flight"], [py "O O B"], [py "flight"]).

Definition second_example : list pystr * list pystr * list pystr :=
  ([py "rain today"], [py "B O"], [py "weather"]).

(** A vocabulary class whose [fit] refuses a size bound below the number of
    special tokens, as the spec has it, and is the pass above otherwise. *)
Definition bounded_fit (v : Vocabulary.t) (data : pyval)
  : result (gmap pystr Z * list pystr) :=
  match Vocabulary.max_size v with
  | Some m =>
      if (m <? Z.of_nat (length (specials v)))%Z
      then Raise (Exn ConfigurationError None)
      else demo_fit v data
  | None => demo_fit v data
  end.

Definition bounded_internals : Vocabulary.Internals :=
  {| Vocabulary.DEFAULT_MAX_SIZE := None;
     Vocabulary.DEFAULT_MIN_FREQ := 1;
     Vocabulary.DEFAULT_UNKNOWN_TOKEN := py "<unk>";
     Vocabulary.DEFAULT_PADDING_TOKEN := py "<pad>";
     Vocabulary.DEFAULT_BOS_TOKEN := py "<bos>";
     Vocabulary.DEFAULT_EOS_TOKEN := py "<eos>";
     Vocabulary.fit_mappings := bounded_fit;
     Vocabulary.dumps := demo_dumps;
     Vocabulary.loads := demo_loads;
     Vocabulary.from_json_returns_self := true |}.

(** The three text files of two examples, and the worlds and builders that
    the methods go through from them. *)
Definition text_world : @world sklearn :=
  @World sklearn
    {[ ["input.txt"] := py "book a flight " ++ [NL] ++ py "rain today" ++ [NL];
       ["label.txt"] := py "O O B" ++ [NL] ++ py "B O" ++ [NL];
       ["class.txt"] := py "flight" ++ [NL] ++ py "weather" ++ [NL] ]}
    ∅ 0%nat.

Section Worlds.
#[local] Existing Instances internals sklearn json constants builders.

Definition ner_dir_world : world :=
  (make_dir_if_not_exist ["dataset"; "ner"] empty_world).2.

Definition ner_vocabulary_run :=
  NERDatasetBuilder.build_vocabulary None 1 (ner_without_vocab, ner_dir_world).

Definition ner_dataset_run :=
  NERDatasetBuilder.build_trainable_dataset None None ner_vocabulary_run.2.

Definition slu_dir_world : world :=
  (make_dir_if_not_exist ["dataset"; "slu"] text_world).2.

Definition slu_vocabulary_run :=
  SLUDatasetBuilder.build_vocabulary None 1 (slu_without_class_vocab, slu_dir_world).

Definition slu_dataset_run :=
  SLUDatasetBuilder.build_trainable_dataset None None slu_vocabulary_run.2.

Definition slu_instant_run :=
  SLUDatasetBuilder.build_instant_data_loader
    ["input.txt"] ["label.txt"] ["class.txt"] None slu_vocabulary_run.2.


(** A configuration for ['ner'] without its ['label'] entry. *)
Definition unlabelled_configs : dataset_configs :=
  {| cfg_paths := {[ "input" := "input.txt" ]};
     cfg_vocab_min_freq := None |}.



End Worlds.

(** A NER builder with vocabularies and a label stream one line short. *)
Definition ner_unequal : NERDatasetBuilder.t :=
  {| NERDatasetBuilder._input_path := ["input.txt"];
     NERDatasetBuilder._label_path := ["label.txt"];
     NERDatasetBuilder._file_type := py "text";
     NERDatasetBuilder._raw_input := [py "a b c"; py "b c"];
     NERDatasetBuilder._raw_label := [py "O O B"];
     NERDatasetBuilder._input_vocab := Some example_vocab;
     NERDatasetBuilder._label_vocab := Some example_vocab;
     NERDatasetBuilder._dataset_dir := ["dataset"; "ner"];
     NERDatasetBuilder._train_data_path := [];
     NERDatasetBuilder._valid_data_path := [] |}.

End Demo.

(** * Properties *)

Import DatasetBuilder.

(** The line with its trailing newline trimmed and nothing else: what the
    specification says [_load_text] keeps of a line. *)
Fixpoint chomp (line : pystr) : pystr :=
  match line with
  | [] => []
  | c :: rest =>
      match rest with
      | [] => if (c =? NL)%N then [] else [c]
      | _ => c :: chomp rest
      end
  end.

(** The positions [indices] of [stream], in that order, are [part]: line [k]
    of [part] is line [indices[k]] of [stream]. *)
Definition selects {A} (indices : list nat) (stream part : list A) : Prop :=
  Forall2 (fun i x => stream !! i = Some x) indices part.

(** The four special tokens of a vocabulary: unknown, padding,
    begin-of-sequence, end-of-sequence; [None] is a token that is disabled. *)
Definition special_tokens (v : Vocabulary.t)
  : option pystr * option pystr * option pystr * option pystr :=
  (Vocabulary.unknown_token v, Vocabulary.padding_token v,
   Vocabulary.bos_token v, Vocabulary.eos_token v).

(** An error names the precondition that failed: it carries a message. *)
Definition names_precondition (e : exn) : Prop := is_Some (exn_msg e).

(** What Python raises for a method called on [None]. *)
Definition none_has_no_to_indices : exn :=
  Exn AttributeError (Some "'NoneType' object has no attribute 'to_indices'").

(** Running the steps of a method. *)
Ltac st_run :=
  unfold mbind, ST_bind, mret, ST_ret, self, set_self, raise, lift, in_world;
  cbv beta iota delta [fst snd].

(** ** Strings *)

Lemma str_split_empty : str_split [] = [].
Proof. reflexivity. Qed.

Lemma split_from_spaces s :
  forallb py_isspace s = true → split_from [] s = [].
Proof.
  induction s as [|c s IH]; simpl; [done|].
  intros [Hc Hs]%andb_prop. rewrite Hc. auto.
Qed.

Lemma str_rstrip_snoc_space s c :
  py_isspace c = true → str_rstrip (s ++ [c]) = str_rstrip s.
Proof.
  intros Hc. induction s as [|a s IH]; simpl.
  - by rewrite Hc.
  - by rewrite IH.
Qed.

Lemma str_rstrip_spaces s :
  forallb py_isspace s = true → str_rstrip s = [].
Proof.
  induction s as [|c s IH]; simpl; [done|].
  intros [Hc Hs]%andb_prop. by rewrite (IH Hs), Hc.
Qed.

(** [rstrip] cuts a suffix of whitespace, and the whole of it. *)
Lemma str_rstrip_suffix s :
  ∃ ws, s = str_rstrip s ++ ws ∧ forallb py_isspace ws = true.
Proof.
  induction s as [|c s (ws & Hs & Hws)]; simpl.
  - by exists [].
  - destruct (str_rstrip s) as [|a r] eqn:Hr.
    + destruct (py_isspace c) eqn:Hc.
      * exists (c :: s). split; [done|]. simpl in *. rewrite Hc. by rewrite Hs.
      * exists ws. split; [|done]. simpl in *. by rewrite Hs at 1.
    + exists ws. split; [|done]. simpl. by rewrite Hs at 1.
Qed.

Lemma str_rstrip_last s c :
  last (str_rstrip s) = Some c → py_isspace c = false.
Proof.
  revert c. induction s as [|a s IH]; simpl; intros c; [done|].
  destruct (str_rstrip s) as [|b r] eqn:Hr.
  - destruct (py_isspace a) eqn:Ha; simpl; [done|]. by intros [= <-].
  - rewrite last_cons_cons. apply IH.
Qed.

Lemma str_rstrip_elem s c : c ∈ str_rstrip s → c ∈ s.
Proof.
  destruct (str_rstrip_suffix s) as (ws & Hs & _).
  intros Hc. rewrite Hs. apply elem_of_app. by left.
Qed.

Lemma str_remove_nl_id s : NL ∉ s → str_remove_nl s = s.
Proof.
  unfold str_remove_nl. induction s as [|c s IH]; [done|].
  intros Hnl. rewrite filter_cons.
  destruct (decide (c ≠ NL)) as [_|Hc].
  - f_equal. apply IH. intros ?. apply Hnl. by right.
  - exfalso. apply Hnl. apply dec_stable in Hc. subst. by left.
Qed.

(** ** Lines of a text file *)

Lemma readline_rest_length s :
  (length (readline s).2 ≤ pred (length s))%nat.
Proof.
  induction s as [|c s IH]; simpl; [done|].
  destruct (c =? NL)%N; simpl; [lia|].
  destruct (readline s) as [l rest]. simpl in *. lia.
Qed.

Lemma read_lines_S n textfile dataset :
  read_lines (S n) textfile dataset
  = read_lines n (readline textfile).2
      (dataset ++ [str_remove_nl (str_rstrip (readline textfile).1)]).
Proof. simpl. by destruct (readline textfile). Qed.

Lemma lines_from_readline c s cur :
  lines_from cur (c :: s)
  = (cur ++ (readline (c :: s)).1) :: lines_from [] (readline (c :: s)).2.
Proof.
  revert c cur. induction s as [|a s IH]; intros c cur.
  - simpl. destruct (c =? NL)%N; simpl; [done|]. by destruct cur.
  - change (lines_from cur (c :: a :: s))
      with (if (c =? NL)%N then (cur ++ [c]) :: lines_from [] (a :: s)
            else lines_from (cur ++ [c]) (a :: s)).
    change (readline (c :: a :: s))
      with (if (c =? NL)%N then ([c], a :: s)
            else let '(l, rest) := readline (a :: s) in (c :: l, rest)).
    destruct (c =? NL)%N; [done|].
    rewrite IH. destruct (readline (a :: s)) as [l rest]. simpl.
    by rewrite <- app_assoc.
Qed.

(** A line holds no newline before its end, so that [rstrip] alone removes
    it, along with the whitespace before it. *)
Lemma readline_shape s :
  (NL ∉ chomp (readline s).1)
  ∧ str_rstrip (readline s).1 = str_rstrip (chomp (readline s).1).
Proof.
  induction s as [|c s [IH1 IH2]].
  - split; [apply not_elem_of_nil|done].
  - cbn [readline]. destruct (N.eqb_spec c NL) as [->|Hc].
    + split; [apply not_elem_of_nil|done].
    + destruct (readline s) as [l rest]. cbn [fst snd] in *.
      destruct l as [|a l].
      * cbn [chomp]. rewrite (proj2 (N.eqb_neq c NL) Hc). split; [|done].
        intros Hin%list_elem_of_singleton. by apply Hc.
      * change (chomp (c :: a :: l)) with (c :: chomp (a :: l)). split.
        -- intros [Heq|Hin]%elem_of_cons; [by apply Hc|by apply IH1].
        -- change (str_rstrip (c :: a :: l))
             with (match str_rstrip (a :: l) with
                   | [] => if py_isspace c then [] else [c]
                   | r => c :: r
                   end).
           rewrite IH2. reflexivity.
Qed.

Lemma read_lines_file_lines n s dataset :
  (length s ≤ n)%nat →
  read_lines (length (file_lines s)) s dataset
  = dataset ++ map (fun l => str_rstrip (chomp l)) (file_lines s).
Proof.
  revert s dataset. induction n as [|n IH]; intros s dataset Hn.
  - destruct s; [|simpl in Hn; lia]. simpl. by rewrite app_nil_r.
  - destruct s as [|c s]; [simpl; by rewrite app_nil_r|].
    unfold file_lines. rewrite lines_from_readline.
    cbn [length map]. rewrite read_lines_S.
    pose proof (readline_rest_length (c :: s)) as Hlen.
    pose proof (readline_shape (c :: s)) as [Hnl Hrs].
    destruct (readline (c :: s)) as [l rest]. cbn [fst snd] in *.
    fold (file_lines rest). rewrite IH; [|simpl in *; lia].
    rewrite <- app_assoc. simpl. f_equal. f_equal.
    rewrite Hrs. apply str_remove_nl_id.
    intros Hin. apply Hnl. by apply str_rstrip_elem.
Qed.

Lemma file_lines_Forall (P : pystr → Prop) s :
  (∀ s', P (readline s').1) → Forall P (file_lines s).
Proof.
  intros HP. remember (length s) as n eqn:Hn.
  assert (length s ≤ n)%nat as Hle by lia. clear Hn.
  revert s Hle. induction n as [|n IH]; intros s Hle.
  - destruct s; [constructor|simpl in Hle; lia].
  - destruct s as [|c s]; [constructor|].
    unfold file_lines. rewrite lines_from_readline. constructor; [apply HP|].
    apply IH. pose proof (readline_rest_length (c :: s)). simpl in *. lia.
Qed.

(** ** Traversals that may raise *)

Lemma mapM_result_cons {A B} (f : A → result B) x l :
  mapM f (x :: l)
  = match f x with
    | Ok y => match mapM f l with Ok k => Ok (y :: k) | Raise e => Raise e end
    | Raise e => Raise e
    end.
Proof. reflexivity. Qed.

Lemma mapM_result_Ok {A B} (f : A → result B) l k :
  mapM f l = Ok k ↔ Forall2 (fun x y => f x = Ok y) l k.
Proof.
  revert k. induction l as [|x l IH]; intros k.
  - split; [intros [= <-]; constructor|by inversion 1].
  - rewrite mapM_result_cons. split.
    + destruct (f x) as [y|] eqn:Hx; [|done].
      destruct (mapM f l) as [k'|] eqn:Hl; [|done].
      intros [= <-]. constructor; [done|]. by apply IH.
    + inversion 1 as [|? y ? k' Hx Hl]; subst. rewrite Hx.
      apply IH in Hl. by rewrite Hl.
Qed.

Lemma mapM_result_Raise {A B} (f : A → result B) l e :
  mapM f l = Raise e → ∃ x, x ∈ l ∧ f x = Raise e.
Proof.
  induction l as [|x l IH]; [done|]. rewrite mapM_result_cons.
  destruct (f x) as [y|e'] eqn:Hx.
  - destruct (mapM f l) as [k|e'] eqn:Hl; [done|].
    intros [= ->]. destruct IH as (x' & Hin & Hx'); [done|].
    exists x'. split; [by right|done].
  - intros [= ->]. exists x. split; [by left|done].
Qed.

Lemma mapM_result_map {A B C} (f : B → result C) (g : A → B) l :
  mapM f (map g l) = mapM (fun x => f (g x)) l.
Proof.
  induction l as [|x l IH]; [done|].
  cbn [map]. rewrite !mapM_result_cons. by rewrite IH.
Qed.

Section Properties.
Context `{VI : Vocabulary.Internals} `{SK : Sklearn} `{JC : JsonCodec}
        `{CO : Constants}.

Lemma load_text_lines p (w : world) text :
  files w !! p = Some text →
  _load_text p w = (Ok (map (fun l => str_rstrip (chomp l)) (file_lines text)), w).
Proof.
  intros Hf. unfold _load_text, get_filelines, open_read, mbind, ST_bind, mret, ST_ret.
  rewrite !Hf. cbn [fst snd]. f_equal. f_equal.
  by rewrite (read_lines_file_lines (length text)).
Qed.

Lemma load_text_unreadable p (w : world) :
  files w !! p = None →
  _load_text p w = (Raise (Exn IOError (Some "No such file or directory")), w).
Proof.
  intros Hf. unfold _load_text, get_filelines, open_read, mbind, ST_bind.
  by rewrite Hf.
Qed.

(** C8, as the code has it. For every readable text file, [_load_text]
    returns one entry per line of the file, in order, as many as the count
    taken up front, and raises nothing. Each entry is the line without its
    newline and without the whitespace that ends it: the entry followed by
    a run of whitespace is the line, and the entry does not end in
    whitespace. An empty line gives the empty string. *)
Theorem load_text_trims_trailing_whitespace p (w : world) text :
  files w !! p = Some text →
  ∃ entries,
    _load_text p w = (Ok entries, w)
    ∧ get_filelines p w = (Ok (length entries), w)
    ∧ entries = map (fun line => str_rstrip (chomp line)) (file_lines text)
    ∧ Forall2 (fun line entry =>
                 (∃ ws, line = entry ++ ws ∧ forallb py_isspace ws = true)
                 ∧ (∀ c, last entry = Some c → py_isspace c = false)
                 ∧ (line = [NL] → entry = []))
              (file_lines text) entries.
Proof.
  intros Hf. eexists. split; [by apply load_text_lines|].
  split; [|split; [done|]].
  - unfold get_filelines, open_read, mbind, ST_bind, mret, ST_ret.
    rewrite Hf. by rewrite length_map.
  - apply Forall2_fmap_r, Forall_Forall2_diag.
    apply file_lines_Forall. intros s'. unfold compose. cbv beta.
    destruct (readline_shape s') as [_ <-]. repeat split.
    + apply str_rstrip_suffix.
    + intros c. apply str_rstrip_last.
    + by intros ->.
Qed.

(** *** Numerization *)

Lemma numerize_each_mapM vocab splited_data done :
  numerize_each vocab splited_data done
  = match mapM (vocab_to_indices vocab) splited_data with
    | Ok r => Ok (done ++ r)
    | Raise e => Raise e
    end.
Proof.
  revert done. induction splited_data as [|s_d rest IH]; intros done.
  - simpl. by rewrite app_nil_r.
  - cbn [numerize_each]. rewrite mapM_result_cons.
    destruct (vocab_to_indices vocab s_d) as [indices|e]; [|done].
    rewrite IH. destruct (mapM _ rest); [|done].
    by rewrite <- app_assoc.
Qed.

Lemma numerize_from_text_mapM data vocab :
  _numerize_from_text data vocab
  = mapM (fun line => vocab_to_indices vocab (str_split line)) data.
Proof.
  unfold _numerize_from_text, _splitify. rewrite numerize_each_mapM.
  rewrite mapM_result_map. by destruct (mapM _ data).
Qed.

Lemma to_indices_nil (v : Vocabulary.t) : Vocabulary.to_indices v [] = Ok [].
Proof. reflexivity. Qed.

(** C1. For every list of raw lines and every vocabulary,
    [_numerize_from_text] is the map of [to_indices] after [split] over
    the lines: when it returns, the result has one index sequence per
    line, in the order of the lines, each the indices of the tokens of its
    line, and an empty line has the empty sequence; when it raises, the
    error is that of [to_indices] on some line, which is not an empty
    line. A single empty line gives one empty sequence. *)
Theorem numerize_from_text_per_line (lines : list pystr) (v : Vocabulary.t) :
  _numerize_from_text lines (Some v)
  = mapM (fun line => Vocabulary.to_indices v (str_split line)) lines
  ∧ match _numerize_from_text lines (Some v) with
    | Ok out =>
        length out = length lines
        ∧ Forall2 (fun line indices =>
                     Vocabulary.to_indices v (str_split line) = Ok indices)
                  lines out
        ∧ (∀ i, lines !! i = Some [] → out !! i = Some [])
    | Raise e =>
        ∃ line, line ∈ lines ∧ line ≠ []
                ∧ Vocabulary.to_indices v (str_split line) = Raise e
    end
  ∧ _numerize_from_text [[]] (Some v) = Ok [[]].
Proof.
  split; [apply numerize_from_text_mapM|]. split; [|reflexivity].
  rewrite numerize_from_text_mapM. cbn [vocab_to_indices].
  destruct (mapM _ lines) as [out|e] eqn:Hm.
  - apply mapM_result_Ok in Hm. split; [symmetry; by eapply Forall2_length|].
    split; [done|]. intros i Hi.
    destruct (Forall2_lookup_l _ _ _ _ _ Hm Hi) as (indices & Hout & Hidx).
    rewrite Hout. by injection Hidx as <-.
  - apply mapM_result_Raise in Hm as (line & Hin & Hline).
    exists line. split; [done|]. split; [|done]. by intros ->.
Qed.

(** *** The train and validation split *)

Lemma safe_indexing_selects {A} (a : list A) indices part :
  safe_indexing a indices = Ok part ↔ selects indices a part.
Proof.
  unfold safe_indexing, selects. rewrite mapM_result_Ok.
  split; intros Hs; eapply Forall2_impl; try exact Hs;
    intros i x; cbv beta; destruct (a !! i); naive_solver.
Qed.

Lemma draw_split_seeded n test_size seed (w : world) :
  draw_split n test_size (Some seed) w
  = ((shuffle_split (rng_seed seed) n test_size).1, w).
Proof. reflexivity. Qed.

(** With an integer seed the split reads nothing of the world and leaves
    it as it was. *)
Lemma train_test_split_seeded {A} (arrays : list (list A)) test_size seed
    (w1 w2 : world) :
  (train_test_split arrays test_size (Some seed) w1).1
  = (train_test_split arrays test_size (Some seed) w2).1
  ∧ (train_test_split arrays test_size (Some seed) w1).2 = w1.
Proof.
  unfold train_test_split. destruct arrays as [|a0 arrays]; [by split|].
  destruct (forallb _ _); [|by split].
  unfold mbind, ST_bind. rewrite !draw_split_seeded.
  destruct (shuffle_split _ _ _).1 as [[train test]|e]; split; reflexivity.
Qed.

Lemma ner_split_Ok input label test_size seed (w : world)
    input_train label_train input_test label_test :
  (NERDatasetBuilder._split_into_valid_and_train input label test_size
     (Some seed) w).1
  = Ok ((input_train, label_train), (input_test, label_test)) →
  ∃ train test,
    (shuffle_split (rng_seed seed) (length input) test_size).1 = Ok (train, test)
    ∧ selects train input input_train ∧ selects train label label_train
    ∧ selects test input input_test ∧ selects test label label_test.
Proof.
  unfold NERDatasetBuilder._split_into_valid_and_train, train_test_split.
  unfold mbind, ST_bind. cbn [forallb].
  destruct (_ && _); [|done].
  rewrite draw_split_seeded.
  destruct (shuffle_split _ _ _).1 as [[train test]|e]; [|done].
  unfold lift, result_bind. rewrite !mapM_result_cons.
  destruct (safe_indexing input train) as [it|] eqn:H1; [|done].
  destruct (safe_indexing input test) as [ie|] eqn:H2; [|done].
  destruct (safe_indexing label train) as [lt|] eqn:H3; [|done].
  destruct (safe_indexing label test) as [le|] eqn:H4; [|done].
  cbn. intros [= <- <- <- <-]. exists train, test.
  by rewrite <- !safe_indexing_selects.
Qed.

Lemma slu_split_Ok input label cls test_size seed (w : world)
    input_train label_train class_train input_test label_test class_test :
  (SLUDatasetBuilder._split_into_valid_and_train input label cls test_size
     (Some seed) w).1
  = Ok ((input_train, label_train, class_train),
        (input_test, label_test, class_test)) →
  ∃ train test,
    (shuffle_split (rng_seed seed) (length input) test_size).1 = Ok (train, test)
    ∧ selects train input input_train ∧ selects train label label_train
    ∧ selects train cls class_train
    ∧ selects test input input_test ∧ selects test label label_test
    ∧ selects test cls class_test.
Proof.
  unfold SLUDatasetBuilder._split_into_valid_and_train, train_test_split.
  unfold mbind, ST_bind. cbn [forallb].
  destruct (_ && _); [|done].
  rewrite draw_split_seeded.
  destruct (shuffle_split _ _ _).1 as [[train test]|e]; [|done].
  unfold lift, result_bind. rewrite !mapM_result_cons.
  destruct (safe_indexing input train) as [it|] eqn:H1; [|done].
  destruct (safe_indexing input test) as [ie|] eqn:H2; [|done].
  destruct (safe_indexing label train) as [lt|] eqn:H3; [|done].
  destruct (safe_indexing label test) as [le|] eqn:H4; [|done].
  destruct (safe_indexing cls train) as [ct|] eqn:H5; [|done].
  destruct (safe_indexing cls test) as [ce|] eqn:H6; [|done].
  cbn. intros [= <- <- <- <- <- <-]. exists train, test.
  by rewrite <- !safe_indexing_selects.
Qed.

Lemma ner_split_seeded input label test_size seed (w1 w2 : world) :
  (NERDatasetBuilder._split_into_valid_and_train input label test_size
     (Some seed) w1).1
  = (NERDatasetBuilder._split_into_valid_and_train input label test_size
       (Some seed) w2).1
  ∧ (NERDatasetBuilder._split_into_valid_and_train input label test_size
       (Some seed) w1).2 = w1.
Proof.
  unfold NERDatasetBuilder._split_into_valid_and_train, mbind, ST_bind.
  destruct (train_test_split_seeded [input; label] test_size seed w1 w2)
    as [Hr Hw].
  destruct (train_test_split _ _ _ w1) as [r1 w1'].
  destruct (train_test_split _ _ _ w2) as [r2 w2'].
  cbn [fst snd] in *. subst.
  destruct r2 as [parts|e]; [|done].
  by destruct parts as [|? [|? [|? [|? [|? ?]]]]].
Qed.

Lemma slu_split_seeded input label cls test_size seed (w1 w2 : world) :
  (SLUDatasetBuilder._split_into_valid_and_train input label cls test_size
     (Some seed) w1).1
  = (SLUDatasetBuilder._split_into_valid_and_train input label cls test_size
       (Some seed) w2).1
  ∧ (SLUDatasetBuilder._split_into_valid_and_train input label cls test_size
       (Some seed) w1).2 = w1.
Proof.
  unfold SLUDatasetBuilder._split_into_valid_and_train, mbind, ST_bind.
  destruct (train_test_split_seeded [input; label; cls] test_size seed w1 w2)
    as [Hr Hw].
  destruct (train_test_split _ _ _ w1) as [r1 w1'].
  destruct (train_test_split _ _ _ w2) as [r2 w2'].
  cbn [fst snd] in *. subst.
  destruct r2 as [parts|e]; [|done].
  by destruct parts as [|? [|? [|? [|? [|? [|? [|? ?]]]]]]].
Qed.

(** C2. Two calls of [_split_into_valid_and_train] on the same sequences,
    with the same ratio and the same integer seed (the builders pass
    [RANDOM_SEED]), return the same partitions whatever the state of the
    world they run in, for the NER and for the SLU builder. When a call
    returns, there is one list of train indices and one list of test
    indices, those drawn from the seed for the number of input lines, and
    each stream of the train partition is the lines of its stream at the
    train indices, each stream of the validation partition those at the
    test indices: line [k] of every stream of a partition is the same
    example. *)
Theorem split_reproducible_and_aligned (input label cls : list pystr)
    (test_size : Q) (seed : Z) (w1 w2 : world) :
  let ner := NERDatasetBuilder._split_into_valid_and_train
               input label test_size (Some seed) in
  let slu := SLUDatasetBuilder._split_into_valid_and_train
               input label cls test_size (Some seed) in
  (ner w1).1 = (ner w2).1
  ∧ (slu w1).1 = (slu w2).1
  ∧ match (ner w1).1 with
    | Ok ((input_train, label_train), (input_test, label_test)) =>
        ∃ train test,
          (shuffle_split (rng_seed seed) (length input) test_size).1
          = Ok (train, test)
          ∧ selects train input input_train ∧ selects train label label_train
          ∧ selects test input input_test ∧ selects test label label_test
    | Raise _ => True
    end
  ∧ match (slu w1).1 with
    | Ok ((input_train, label_train, class_train),
          (input_test, label_test, class_test)) =>
        ∃ train test,
          (shuffle_split (rng_seed seed) (length input) test_size).1
          = Ok (train, test)
          ∧ selects train input input_train ∧ selects train label label_train
          ∧ selects train cls class_train
          ∧ selects test input input_test ∧ selects test label label_test
          ∧ selects test cls class_test
    | Raise _ => True
    end.
Proof.
  intros ner slu. split; [apply ner_split_seeded|].
  split; [apply slu_split_seeded|]. split.
  - destruct (ner w1).1 as [[[it lt] [ie le]]|e] eqn:Hn; [|done].
    by eapply ner_split_Ok.
  - destruct (slu w1).1 as [[[[it lt] ct] [[ie le] ce]]|e] eqn:Hs; [|done].
    by eapply slu_split_Ok.
Qed.

(** *** [build_trainable_dataset] and its precondition *)

Lemma numerize_without_vocab data :
  data ≠ [] → _numerize_from_text data None = Raise none_has_no_to_indices.
Proof. by destruct data. Qed.

Lemma numerize_nothing vocab : _numerize_from_text [] vocab = Ok [].
Proof. reflexivity. Qed.

Lemma ner_check_raises (b : NERDatasetBuilder.t) tp vp (w : world) :
  is_none (NERDatasetBuilder._input_vocab b)
  || is_none (NERDatasetBuilder._label_vocab b) = true →
  NERDatasetBuilder.build_trainable_dataset tp vp (b, w)
  = (Raise (Exn ValueError None), (b, w)).
Proof.
  intros Hc. unfold NERDatasetBuilder.build_trainable_dataset. st_run.
  by rewrite Hc.
Qed.

Lemma slu_check_raises (b : SLUDatasetBuilder.t) tp vp (w : world) :
  is_none (SLUDatasetBuilder._input_vocab b)
  || is_none (SLUDatasetBuilder._label_vocab b) = true →
  SLUDatasetBuilder.build_trainable_dataset tp vp (b, w)
  = (Raise (Exn ValueError None), (b, w)).
Proof.
  intros Hc. unfold SLUDatasetBuilder.build_trainable_dataset. st_run.
  by rewrite Hc.
Qed.

(** With both vocabularies present the NER builder goes on: it splits,
    numerizes the four streams, writes the two datasets and records their
    paths. *)
Lemma ner_build_trainable_dataset_proceeds (b : NERDatasetBuilder.t) tp vp
    (w w1 w2 : world) train valid ti te vi ve :
  let train_path :=
    default (NERDatasetBuilder._dataset_dir b // TRAIN_DATASET_FILENAME) tp in
  let valid_path :=
    default (NERDatasetBuilder._dataset_dir b // VALIDATION_DATASET_FILENAME) vp in
  is_none (NERDatasetBuilder._input_vocab b)
  || is_none (NERDatasetBuilder._label_vocab b) = false →
  (NERDatasetBuilder._split_into_valid_and_train
     (NERDatasetBuilder._raw_input b) (NERDatasetBuilder._raw_label b)
     DEFAULT_TEST_SIZE (Some RANDOM_SEED) w).1 = Ok (train, valid) →
  _numerize_from_text train.1 (NERDatasetBuilder._input_vocab b) = Ok ti →
  _numerize_from_text train.2 (NERDatasetBuilder._label_vocab b) = Ok te →
  _numerize_from_text valid.1 (NERDatasetBuilder._input_vocab b) = Ok vi →
  _numerize_from_text valid.2 (NERDatasetBuilder._label_vocab b) = Ok ve →
  _save_as_json (<["entities" := te]> (<["inputs" := ti]> ∅)) train_path w
  = (Ok tt, w1) →
  _save_as_json (<["entities" := ve]> (<["inputs" := vi]> ∅)) valid_path w1
  = (Ok tt, w2) →
  NERDatasetBuilder.build_trainable_dataset tp vp (b, w)
  = (Ok tt,
     (NERDatasetBuilder.append_valid_data_path valid_path
        (NERDatasetBuilder.append_train_data_path train_path b), w2)).
Proof.
  intros train_path valid_path.
  destruct train as [t_in t_lab], valid as [v_in v_lab]. cbn [fst snd].
  intros Hc Hsplit Hti Hte Hvi Hve Hw1 Hw2.
  assert (NERDatasetBuilder._split_into_valid_and_train
            (NERDatasetBuilder._raw_input b) (NERDatasetBuilder._raw_label b)
            DEFAULT_TEST_SIZE (Some RANDOM_SEED) w
          = (Ok ((t_in, t_lab), (v_in, v_lab)), w)) as Heq.
  { rewrite <- Hsplit.
    pose proof (proj2 (ner_split_seeded (NERDatasetBuilder._raw_input b)
                         (NERDatasetBuilder._raw_label b)
                         DEFAULT_TEST_SIZE RANDOM_SEED w w)) as Hw.
    by destruct (NERDatasetBuilder._split_into_valid_and_train _ _ _ _ w);
      simpl in *; subst. }
  unfold NERDatasetBuilder.build_trainable_dataset. st_run.
  rewrite Hc. cbv beta iota delta [fst snd].
  rewrite Heq. cbv beta iota delta [fst snd].
  rewrite Hti, Hte, Hvi, Hve.
  subst train_path valid_path. unfold default, from_option, id in *.
  destruct tp, vp; by rewrite Hw1, Hw2.
Qed.

(** C5. In [SLUDatasetBuilder.build_trainable_dataset] the check looks at
    the input and the label vocabulary only. For a builder that has both
    and whose class vocabulary is [None], the check passes and the split
    is made; once the split has returned and the inputs and slots of the
    train partition are numerized, numerizing its class stream, which is
    not empty, against [None] raises AttributeError, and that is what the
    call raises: no ValueError, and nothing is written. *)
Theorem slu_absent_class_vocab_fails_late (b : SLUDatasetBuilder.t) tp vp
    (w : world) train valid :
  is_none (SLUDatasetBuilder._input_vocab b) = false →
  is_none (SLUDatasetBuilder._label_vocab b) = false →
  SLUDatasetBuilder._class_vocab b = None →
  (SLUDatasetBuilder._split_into_valid_and_train
     (SLUDatasetBuilder._raw_input b) (SLUDatasetBuilder._raw_label b)
     (SLUDatasetBuilder._raw_class b) DEFAULT_TEST_SIZE (Some RANDOM_SEED) w).1
  = Ok (train, valid) →
  is_ok (_numerize_from_text train.1.1 (SLUDatasetBuilder._input_vocab b)) = true →
  is_ok (_numerize_from_text train.1.2 (SLUDatasetBuilder._label_vocab b)) = true →
  train.2 ≠ [] →
  is_none (SLUDatasetBuilder._input_vocab b)
  || is_none (SLUDatasetBuilder._label_vocab b) = false
  ∧ _numerize_from_text train.2 (SLUDatasetBuilder._class_vocab b)
    = Raise none_has_no_to_indices
  ∧ SLUDatasetBuilder.build_trainable_dataset tp vp (b, w)
    = (Raise none_has_no_to_indices, (b, w)).
Proof.
  destruct train as [[ti tl] tc]. cbn [fst snd].
  intros Hi Hl Hc Hsplit Hni Hns Hne.
  split; [by rewrite Hi, Hl|]. rewrite Hc.
  split; [by apply numerize_without_vocab|].
  assert (SLUDatasetBuilder._split_into_valid_and_train
            (SLUDatasetBuilder._raw_input b) (SLUDatasetBuilder._raw_label b)
            (SLUDatasetBuilder._raw_class b) DEFAULT_TEST_SIZE
            (Some RANDOM_SEED) w = (Ok ((ti, tl, tc), valid), w)) as Heq.
  { rewrite <- Hsplit.
    pose proof (proj2 (slu_split_seeded (SLUDatasetBuilder._raw_input b)
                         (SLUDatasetBuilder._raw_label b)
                         (SLUDatasetBuilder._raw_class b)
                         DEFAULT_TEST_SIZE RANDOM_SEED w w)) as Hw.
    by destruct (SLUDatasetBuilder._split_into_valid_and_train _ _ _ _ _ w);
      simpl in *; subst. }
  unfold SLUDatasetBuilder.build_trainable_dataset. st_run.
  rewrite Hi, Hl. cbv beta iota delta [fst snd orb].
  rewrite Heq. cbv beta iota delta [fst snd].
  destruct (_numerize_from_text ti _); [|done].
  destruct (_numerize_from_text tl _); [|done].
  rewrite Hc. by rewrite numerize_without_vocab.
Qed.

(** C10, as the code has it. The error of the vocabulary check carries no
    message: [build_trainable_dataset] called while the input or the label
    vocabulary is [None] raises a [ValueError] without argument, for the
    NER and for the SLU builder, and leaves the builder and the world as
    they were; the exception class alone tells what failed. *)
Theorem missing_vocabulary_error_has_no_message (nb : NERDatasetBuilder.t)
    (sb : SLUDatasetBuilder.t) tp vp (w : world) :
  is_none (NERDatasetBuilder._input_vocab nb)
  || is_none (NERDatasetBuilder._label_vocab nb) = true →
  is_none (SLUDatasetBuilder._input_vocab sb)
  || is_none (SLUDatasetBuilder._label_vocab sb) = true →
  ∃ e, exn_type e = ValueError ∧ exn_msg e = None
       ∧ NERDatasetBuilder.build_trainable_dataset tp vp (nb, w) = (Raise e, (nb, w))
       ∧ SLUDatasetBuilder.build_trainable_dataset tp vp (sb, w) = (Raise e, (sb, w)).
Proof.
  intros Hn Hs. exists (Exn ValueError None).
  split; [done|]. split; [done|].
  split; [by apply ner_check_raises|by apply slu_check_raises].
Qed.

(** *** [build_vocabulary] *)

Lemma fit_keeps_special_tokens v data v' :
  Vocabulary.fit v data = Ok v' → special_tokens v' = special_tokens v.
Proof.
  unfold Vocabulary.fit, mbind, result_bind.
  destruct (Vocabulary.fit_mappings v data); [|done]. by intros [= <-].
Qed.

(** The cases of a method that calls [fit] and [to_json] in turn. *)
Ltac vocabulary_cases :=
  unfold fit_attr, to_json_attr; st_run; cbn;
  repeat (first [ progress cbn in * | case_match; simplify_eq ]).

Ltac kept_special_tokens :=
  repeat match goal with
         | H : Some _ = Some _ |- _ => injection H as H; subst
         | H : Vocabulary.fit _ _ = Ok ?v |- context [special_tokens ?v] =>
             rewrite (fit_keeps_special_tokens _ _ _ H)
         end;
  reflexivity.

Lemma ner_build_vocabulary_special_tokens (b : NERDatasetBuilder.t)
    max_size min_freq (w : world) :
  ∃ iv lv,
    NERDatasetBuilder._input_vocab
      (NERDatasetBuilder.build_vocabulary max_size min_freq (b, w)).2.1 = Some iv
    ∧ NERDatasetBuilder._label_vocab
        (NERDatasetBuilder.build_vocabulary max_size min_freq (b, w)).2.1 = Some lv
    ∧ special_tokens iv
      = (Some Vocabulary.DEFAULT_UNKNOWN_TOKEN, Some Vocabulary.DEFAULT_PADDING_TOKEN,
         None, None)
    ∧ special_tokens lv
      = (None, Some Vocabulary.DEFAULT_PADDING_TOKEN,
         Some Vocabulary.DEFAULT_BOS_TOKEN, Some Vocabulary.DEFAULT_EOS_TOKEN).
Proof.
  unfold NERDatasetBuilder.build_vocabulary. vocabulary_cases.
  all: do 2 eexists; repeat split; try reflexivity; kept_special_tokens.
Qed.

Lemma slu_build_vocabulary_special_tokens (b : SLUDatasetBuilder.t)
    max_size min_freq (w : world) :
  ∃ iv lv cv,
    SLUDatasetBuilder._input_vocab
      (SLUDatasetBuilder.build_vocabulary max_size min_freq (b, w)).2.1 = Some iv
    ∧ SLUDatasetBuilder._label_vocab
        (SLUDatasetBuilder.build_vocabulary max_size min_freq (b, w)).2.1 = Some lv
    ∧ SLUDatasetBuilder._class_vocab
        (SLUDatasetBuilder.build_vocabulary max_size min_freq (b, w)).2.1 = Some cv
    ∧ special_tokens iv
      = (Some Vocabulary.DEFAULT_UNKNOWN_TOKEN, Some Vocabulary.DEFAULT_PADDING_TOKEN,
         None, None)
    ∧ special_tokens lv
      = (None, Some Vocabulary.DEFAULT_PADDING_TOKEN,
         Some Vocabulary.DEFAULT_BOS_TOKEN, Some Vocabulary.DEFAULT_EOS_TOKEN)
    ∧ special_tokens cv = (None, None, None, None).
Proof.
  unfold SLUDatasetBuilder.build_vocabulary. vocabulary_cases.
  all: do 3 eexists; repeat split; try reflexivity; kept_special_tokens.
Qed.

(** C6. [build_vocabulary] sets the special tokens by role. The input
    vocabulary of the NER and of the SLU builder is created with the
    begin-of-sequence and end-of-sequence tokens disabled and the unknown
    and padding tokens left at their defaults; the label vocabulary with
    the unknown token disabled and the other three left at their defaults;
    the class vocabulary of the SLU builder with all four disabled. The
    vocabularies the builder holds after the call, whether the call
    returned or raised on the way, have these same special tokens. *)
Theorem build_vocabulary_special_tokens (nb : NERDatasetBuilder.t)
    (sb : SLUDatasetBuilder.t) max_size min_freq (w : world) :
  let unk := Some Vocabulary.DEFAULT_UNKNOWN_TOKEN in
  let pad := Some Vocabulary.DEFAULT_PADDING_TOKEN in
  let bos := Some Vocabulary.DEFAULT_BOS_TOKEN in
  let eos := Some Vocabulary.DEFAULT_EOS_TOKEN in
  let nb' := (NERDatasetBuilder.build_vocabulary max_size min_freq (nb, w)).2.1 in
  let sb' := (SLUDatasetBuilder.build_vocabulary max_size min_freq (sb, w)).2.1 in
  special_tokens
    (Vocabulary.__init__ (NERDatasetBuilder.input_vocab_kwargs max_size min_freq))
  = (unk, pad, None, None)
  ∧ special_tokens (Vocabulary.__init__ NERDatasetBuilder.label_vocab_kwargs)
    = (None, pad, bos, eos)
  ∧ special_tokens
      (Vocabulary.__init__ (SLUDatasetBuilder.input_vocab_kwargs max_size min_freq))
    = (unk, pad, None, None)
  ∧ special_tokens (Vocabulary.__init__ SLUDatasetBuilder.label_vocab_kwargs)
    = (None, pad, bos, eos)
  ∧ special_tokens (Vocabulary.__init__ SLUDatasetBuilder.class_vocab_kwargs)
    = (None, None, None, None)
  ∧ (∃ iv lv,
        NERDatasetBuilder._input_vocab nb' = Some iv
        ∧ NERDatasetBuilder._label_vocab nb' = Some lv
        ∧ special_tokens iv = (unk, pad, None, None)
        ∧ special_tokens lv = (None, pad, bos, eos))
  ∧ (∃ iv lv cv,
        SLUDatasetBuilder._input_vocab sb' = Some iv
        ∧ SLUDatasetBuilder._label_vocab sb' = Some lv
        ∧ SLUDatasetBuilder._class_vocab sb' = Some cv
        ∧ special_tokens iv = (unk, pad, None, None)
        ∧ special_tokens lv = (None, pad, bos, eos)
        ∧ special_tokens cv = (None, None, None, None)).
Proof.
  intros unk pad bos eos nb' sb'. repeat (split; [reflexivity|]).
  split.
  - apply ner_build_vocabulary_special_tokens.
  - apply slu_build_vocabulary_special_tokens.
Qed.

Lemma numerize_from_text_splitify data vocab :
  _numerize_from_text data vocab
  = mapM (vocab_to_indices vocab) (_splitify data).
Proof.
  unfold _numerize_from_text. rewrite numerize_each_mapM.
  by destruct (mapM _ _).
Qed.

End Properties.

Section UtilsProperties.
Context `{VI : Vocabulary.Internals} `{BC : BuilderClasses}
        `{JC : JsonCodec} `{CO : Constants}.

(** ** [data_manager/utils.py] *)

Lemma from_json_world v p (w : world) : (Vocabulary.from_json v p w).2 = w.
Proof.
  unfold Vocabulary.from_json, open_read. st_run.
  destruct (files w !! p); [|done]. by destruct (Vocabulary.loads v _).
Qed.

Lemma from_json_eq v p (w : world) :
  Vocabulary.from_json v p w = ((Vocabulary.from_json v p w).1, w).
Proof. rewrite <- (from_json_world v p w) at 3. apply surjective_pairing. Qed.

(** C7. [load_vocab_dir] returns the vocabularies keyed by role. For
    ['ner'] and ['word_segment'], when the input and the label vocabulary
    load from their JSON files under [dir_path / 'dataset'], it returns a
    mapping whose keys are exactly [input_vocab] and [label_vocab], each
    bound to the vocabulary loaded from its file; for ['slu'], when the
    class vocabulary loads as well, a mapping whose keys are exactly
    [input_vocab], [label_vocab] and [class_vocab]; for every other type
    it raises [ValueError]. The world is left as it was. *)
Theorem load_vocab_dir_by_task_type (type : pystr) (dir_path : path)
    (w : world) :
  let load name :=
    (Vocabulary.from_json (Vocabulary.__init__ Vocabulary.no_kwargs)
       (dir_path // "dataset" // name) w).1 in
  ((type = py "ner" ∨ type = py "word_segment") →
   ∀ iv lv r1 r2,
     load INPUT_VOCAB_FILENAME = Ok (iv, r1) →
     load TAG_VOCAB_FILENAME = Ok (lv, r2) →
     ∃ ret,
       load_vocab_dir type dir_path w = (Ok ret, w)
       ∧ dom ret = {[ "input_vocab"; "label_vocab" ]}
       ∧ ret !! "input_vocab" = Some iv
       ∧ ret !! "label_vocab" = Some lv)
  ∧ (type = py "slu" →
     ∀ iv lv cv r1 r2 r3,
       load INPUT_VOCAB_FILENAME = Ok (iv, r1) →
       load TAG_VOCAB_FILENAME = Ok (lv, r2) →
       load CLASS_VOCAB_FILENAME = Ok (cv, r3) →
       ∃ ret,
         load_vocab_dir type dir_path w = (Ok ret, w)
         ∧ dom ret = {[ "input_vocab"; "label_vocab"; "class_vocab" ]}
         ∧ ret !! "input_vocab" = Some iv
         ∧ ret !! "label_vocab" = Some lv
         ∧ ret !! "class_vocab" = Some cv)
  ∧ (type ≠ py "ner" → type ≠ py "word_segment" → type ≠ py "slu" →
     load_vocab_dir type dir_path w = (Raise (Exn ValueError None), w)).
Proof.
  intros load. subst load. cbv beta. split; [|split].
  - intros Htype iv lv r1 r2 Hi Hl.
    assert (bool_decide (type = py "ner") || bool_decide (type = py "word_segment")
            = true) as Hb.
    { destruct Htype as [->| ->]; [done|]. apply orb_true_r. }
    unfold load_vocab_dir. rewrite Hb. st_run.
    rewrite (from_json_eq _ (_ // INPUT_VOCAB_FILENAME)), Hi.
    rewrite (from_json_eq _ (_ // TAG_VOCAB_FILENAME)), Hl.
    cbv beta iota delta [fst snd].
    eexists. split; [reflexivity|]. split.
    + rewrite !dom_insert_L, dom_empty_L. set_solver.
    + split; by simplify_map_eq.
  - intros -> iv lv cv r1 r2 r3 Hi Hl Hc.
    unfold load_vocab_dir. cbn [orb].
    rewrite (bool_decide_eq_false_2 (py "slu" = py "ner")) by done.
    rewrite (bool_decide_eq_false_2 (py "slu" = py "word_segment")) by done.
    rewrite (bool_decide_eq_true_2 (py "slu" = py "slu")) by done.
    cbn [orb]. st_run.
    rewrite (from_json_eq _ (_ // INPUT_VOCAB_FILENAME)), Hi.
    rewrite (from_json_eq _ (_ // TAG_VOCAB_FILENAME)), Hl.
    rewrite (from_json_eq _ (_ // CLASS_VOCAB_FILENAME)), Hc.
    cbv beta iota delta [fst snd].
    eexists. split; [reflexivity|]. split.
    + rewrite !dom_insert_L, dom_empty_L. set_solver.
    + repeat split; by simplify_map_eq.
  - intros Hn Hw Hs. unfold load_vocab_dir.
    by rewrite !bool_decide_eq_false_2.
Qed.

Lemma ner_init_unsupported ip lp file_type iv lv dd (w : world) :
  file_type ≠ py "text" →
  NERDatasetBuilder.__init__ ip lp file_type iv lv dd w
  = (Raise (Exn NotImplementedError None), w).
Proof.
  intros Hf. unfold NERDatasetBuilder.__init__.
  by rewrite bool_decide_eq_false_2.
Qed.

Lemma slu_init_unsupported ip lp cp file_type iv lv cv dd (w : world) :
  file_type ≠ py "text" →
  SLUDatasetBuilder.__init__ ip lp cp file_type iv lv cv dd w
  = (Raise (Exn NotImplementedError None), w).
Proof.
  intros Hf. unfold SLUDatasetBuilder.__init__.
  by rewrite bool_decide_eq_false_2.
Qed.

(** C9, as the code has it. A builder constructed with a [file_type] other
    than ['text'] raises [NotImplementedError], before it reads anything,
    and [create_builder] with a task type other than ['ner'],
    ['word_segment'] and ['slu'] raises [NotImplementedError]: at once
    when the configuration names no vocabulary file, and otherwise once
    that file has loaded (an error of the load comes first). The error is
    never a [ConfigurationError]. *)
Theorem unsupported_raises_not_implemented (file_type type : pystr)
    ip lp cp iv lv cv dd (cfg : dataset_configs) deploy_path (w : world) :
  file_type ≠ py "text" →
  type ≠ py "ner" → type ≠ py "word_segment" → type ≠ py "slu" →
  NERDatasetBuilder.__init__ ip lp file_type iv lv dd w
  = (Raise (Exn NotImplementedError None), w)
  ∧ SLUDatasetBuilder.__init__ ip lp cp file_type iv lv cv dd w
    = (Raise (Exn NotImplementedError None), w)
  ∧ create_builder type cfg deploy_path w
    = match cfg_paths cfg !! "vocab_path" with
      | None => (Raise (Exn NotImplementedError None), w)
      | Some vocab_path =>
          match load_vocab_file (Path vocab_path) w with
          | (Ok _, w') => (Raise (Exn NotImplementedError None), w')
          | (Raise e, w') => (Raise e, w')
          end
      end.
Proof.
  intros Hf Hn Hw Hs.
  split; [by apply ner_init_unsupported|].
  split; [by apply slu_init_unsupported|].
  unfold create_builder, config_get.
  rewrite !(bool_decide_eq_false_2 (type = _)) by done.
  destruct (cfg_paths cfg !! "vocab_path") as [vocab_path|] eqn:Hv.
  - rewrite bool_decide_eq_true_2 by eauto. st_run.
    by destruct (load_vocab_file (Path vocab_path) w) as [[?|?] ?].
  - rewrite bool_decide_eq_false_2 by (by intros [? ?]). reflexivity.
Qed.
End UtilsProperties.

(** * The builders run on concrete collaborators *)

Section Runs.
#[local] Existing Instances Demo.internals Demo.sklearn Demo.json
  Demo.constants Demo.builders.

Lemma numerize_from_text_per_line_witness :
  _numerize_from_text Demo.some_lines (Some Demo.example_vocab)
  = Ok [[2; 3; 4]; []; []; [0]].
Proof.
  destruct (numerize_from_text_per_line Demo.some_lines Demo.example_vocab) as [H _].
  rewrite H. vm_compute. reflexivity.
Defined.

Lemma split_reproducible_and_aligned_witness :
  (SLUDatasetBuilder._split_into_valid_and_train
     [py "a"; py "b"] [py "A"; py "B"] [py "x"; py "y"]
     DEFAULT_TEST_SIZE (Some RANDOM_SEED) Demo.empty_world).1
  = (SLUDatasetBuilder._split_into_valid_and_train
       [py "a"; py "b"] [py "A"; py "B"] [py "x"; py "y"]
       DEFAULT_TEST_SIZE (Some RANDOM_SEED) Demo.other_world).1
  ∧ (SLUDatasetBuilder._split_into_valid_and_train
       [py "a"; py "b"] [py "A"; py "B"] [py "x"; py "y"]
       DEFAULT_TEST_SIZE (Some RANDOM_SEED) Demo.other_world).1
    = Ok (([py "a"], [py "A"], [py "x"]), ([py "b"], [py "B"], [py "y"])).
Proof.
  split.
  - exact (proj1 (proj2 (split_reproducible_and_aligned
                           [py "a"; py "b"] [py "A"; py "B"] [py "x"; py "y"]
                           DEFAULT_TEST_SIZE RANDOM_SEED
                           Demo.empty_world Demo.other_world))).
  - vm_compute. reflexivity.
Defined.

(** Streams of different lengths are refused before any index is drawn. *)
Example split_of_unequal_streams_raises :
  (NERDatasetBuilder._split_into_valid_and_train
     [py "a"; py "b"] [py "A"] DEFAULT_TEST_SIZE (Some RANDOM_SEED)
     Demo.empty_world).1
  = Raise (Exn ValueError
             (Some "Found input variables with inconsistent numbers of samples")).
Proof. reflexivity. Qed.

(** Without a seed the split draws from the generator of the world, and
    two worlds give two partitions. *)
Example unseeded_split_depends_on_world :
  (NERDatasetBuilder._split_into_valid_and_train
     [py "a"; py "b"; py "c"] [py "A"; py "B"; py "C"]
     DEFAULT_TEST_SIZE None Demo.empty_world).1
  ≠ (NERDatasetBuilder._split_into_valid_and_train
       [py "a"; py "b"; py "c"] [py "A"; py "B"; py "C"]
       DEFAULT_TEST_SIZE None Demo.other_world).1.
Proof. vm_compute. discriminate. Qed.

(** C4, where the code departs from it. An SLU builder that holds an input
    and a label vocabulary and whose class vocabulary is [None] lacks a
    required vocabulary, yet [build_trainable_dataset] raises no
    [ValueError]: the check passes, and the call ends in the
    [AttributeError] of numerizing the intents against [None]. A NER
    builder without vocabularies does raise [ValueError]. *)
Theorem slu_absent_class_vocab_is_not_a_value_error :
  SLUDatasetBuilder._class_vocab Demo.slu_without_class_vocab = None
  ∧ is_none (SLUDatasetBuilder._input_vocab Demo.slu_without_class_vocab) = false
  ∧ is_none (SLUDatasetBuilder._label_vocab Demo.slu_without_class_vocab) = false
  ∧ (SLUDatasetBuilder.build_trainable_dataset None None
       (Demo.slu_without_class_vocab, Demo.empty_world)).1
    = Raise none_has_no_to_indices
  ∧ exn_type none_has_no_to_indices ≠ ValueError
  ∧ (NERDatasetBuilder.build_trainable_dataset None None
       (Demo.ner_without_vocab, Demo.empty_world)).1
    = Raise (Exn ValueError None).
Proof. vm_compute. repeat split; try reflexivity. discriminate. Qed.

Lemma slu_absent_class_vocab_fails_late_witness :
  SLUDatasetBuilder.build_trainable_dataset None None
    (Demo.slu_without_class_vocab, Demo.empty_world)
  = (Raise none_has_no_to_indices,
     (Demo.slu_without_class_vocab, Demo.empty_world)).
Proof.
  apply (slu_absent_class_vocab_fails_late Demo.slu_without_class_vocab
           None None Demo.empty_world Demo.first_example Demo.second_example).
  - reflexivity.
  - reflexivity.
  - reflexivity.
  - vm_compute. reflexivity.
  - vm_compute. reflexivity.
  - vm_compute. reflexivity.
  - discriminate.
Defined.

Lemma build_vocabulary_special_tokens_witness :
  special_tokens
    (Vocabulary.__init__ SLUDatasetBuilder.class_vocab_kwargs)
  = (None, None, None, None)
  ∧ special_tokens
      (Vocabulary.__init__ (NERDatasetBuilder.input_vocab_kwargs None 1))
    = (Some (py "<unk>"), Some (py "<pad>"), None, None).
Proof.
  destruct (build_vocabulary_special_tokens Demo.ner_without_vocab
              Demo.slu_without_class_vocab None 1 Demo.empty_world)
    as (Hi & _ & _ & _ & Hc & _).
  split; [exact Hc|exact Hi].
Defined.

Lemma load_vocab_dir_by_task_type_witness :
  (∃ ret,
      load_vocab_dir (py "slu") ["model"] Demo.vocab_world
      = (Ok ret, Demo.vocab_world)
      ∧ dom ret = {[ "input_vocab"; "label_vocab"; "class_vocab" ]})
  ∧ load_vocab_dir (py "pos") ["model"] Demo.vocab_world
    = (Raise (Exn ValueError None), Demo.vocab_world).
Proof.
  destruct (load_vocab_dir_by_task_type (py "slu") ["model"] Demo.vocab_world)
    as (_ & Hslu & _).
  destruct (load_vocab_dir_by_task_type (py "pos") ["model"] Demo.vocab_world)
    as (_ & _ & Hother).
  split.
  - edestruct Hslu as (ret & Hret & Hdom & _).
    + reflexivity.
    + vm_compute. reflexivity.
    + vm_compute. reflexivity.
    + vm_compute. reflexivity.
    + exists ret. split; [exact Hret|exact Hdom].
  - apply Hother; discriminate.
Defined.

Lemma load_text_trims_trailing_whitespace_witness :
  files Demo.spaced_world !! ["input.txt"] = Some Demo.spaced_text
  ∧ _load_text ["input.txt"] Demo.spaced_world
    = (Ok [py "a"; []; py "b c"], Demo.spaced_world).
Proof.
  split; [reflexivity|].
  destruct (load_text_trims_trailing_whitespace ["input.txt"] Demo.spaced_world
              Demo.spaced_text) as (entries & Hload & _ & -> & _).
  - reflexivity.
  - exact Hload.
Defined.

(** C8 fails as stated: the first line of the file is ["a "] before its
    newline, and the entry read for it is ["a"], without the space. *)
Lemma load_text_drops_trailing_space :
  files Demo.spaced_world !! ["input.txt"] = Some Demo.spaced_text
  ∧ map chomp (file_lines Demo.spaced_text) = [py "a "; []; py "b c"]
  ∧ (_load_text ["input.txt"] Demo.spaced_world).1 = Ok [py "a"; []; py "b c"]
  ∧ (_load_text ["input.txt"] Demo.spaced_world).1
    ≠ Ok (map chomp (file_lines Demo.spaced_text)).
Proof. vm_compute. repeat split; try reflexivity. discriminate. Qed.

Lemma unsupported_raises_not_implemented_witness :
  py "csv" ≠ py "text"
  ∧ NERDatasetBuilder.__init__ ["input.txt"] ["label.txt"] (py "csv")
      None None ["dataset"] Demo.empty_world
    = (Raise (Exn NotImplementedError None), Demo.empty_world)
  ∧ create_builder (py "pos") Demo.example_configs (DirStr "./tmp") Demo.empty_world
    = (Raise (Exn NotImplementedError None), Demo.empty_world).
Proof.
  split; [discriminate|].
  destruct (unsupported_raises_not_implemented (py "csv") (py "pos")
              ["input.txt"] ["label.txt"] ["class.txt"] None None None
              ["dataset"] Demo.example_configs (DirStr "./tmp") Demo.empty_world)
    as (Hner & _ & Hcreate); try discriminate.
  split; [exact Hner|exact Hcreate].
Defined.

(** C9 fails as stated: the error of an unsupported [file_type], and of an
    unsupported task type, is a [NotImplementedError], not a
    [ConfigurationError]. *)
Lemma unsupported_is_not_a_configuration_error :
  (NERDatasetBuilder.__init__ ["input.txt"] ["label.txt"] (py "csv")
     None None ["dataset"] Demo.empty_world).1
  = Raise (Exn NotImplementedError None)
  ∧ (create_builder (py "pos") Demo.example_configs (DirStr "./tmp") Demo.empty_world).1
    = Raise (Exn NotImplementedError None)
  ∧ exn_type (Exn NotImplementedError None) ≠ ConfigurationError.
Proof. vm_compute. repeat split; try reflexivity. discriminate. Qed.

Lemma missing_vocabulary_error_has_no_message_witness :
  ∃ e, exn_type e = ValueError ∧ exn_msg e = None
       ∧ NERDatasetBuilder.build_trainable_dataset None None
           (Demo.ner_without_vocab, Demo.empty_world)
         = (Raise e, (Demo.ner_without_vocab, Demo.empty_world)).
Proof.
  destruct (missing_vocabulary_error_has_no_message Demo.ner_without_vocab
              (SLUDatasetBuilder.set_input_vocab None Demo.slu_without_class_vocab)
              None None Demo.empty_world)
    as (e & Ht & Hm & Hn & _); [reflexivity|reflexivity|].
  exists e. split; [exact Ht|]. split; [exact Hm|exact Hn].
Defined.

(** C10 fails as stated: the error raised when [build_trainable_dataset]
    is called before the vocabularies exist carries no message, so that
    it names no precondition. *)
Lemma missing_vocabulary_error_names_nothing :
  (NERDatasetBuilder.build_trainable_dataset None None
     (Demo.ner_without_vocab, Demo.empty_world)).1
  = Raise (Exn ValueError None)
  ∧ ¬ names_precondition (Exn ValueError None).
Proof.
  split; [vm_compute; reflexivity|].
  unfold names_precondition. cbn. by intros [? ?].
Qed.
End Runs.


(** * Further properties of the builders *)

(** ** Tokens *)

Lemma split_from_tokens cur s :
  Forall (fun c => py_isspace c = false) cur →
  Forall (fun t => t ≠ [] ∧ Forall (fun c => py_isspace c = false) t)
         (split_from cur s)
  ∧ List.concat (split_from cur s)
    = cur ++ filter (fun c => py_isspace c = false) s.
Proof.
  revert cur. induction s as [|c s IH]; intros cur Hcur.
  - destruct cur as [|a cur]; cbn [split_from].
    + split; [constructor|done].
    + split; [by constructor|]. cbn. by rewrite !app_nil_r.
  - cbn [split_from]. rewrite filter_cons.
    destruct (py_isspace c) eqn:Hc.
    + destruct (decide (true = false)) as [?|_]; [done|].
      destruct (IH [] (Forall_nil_2 _)) as [Htok Hcat].
      destruct cur as [|a cur]; [by rewrite Hcat|].
      split; [by constructor|]. cbn [List.concat]. by rewrite Hcat.
    + destruct (decide (false = false)) as [_|?]; [|done].
      destruct (IH (cur ++ [c])) as [Htok Hcat].
      { apply Forall_app. split; [done|by constructor]. }
      split; [done|]. rewrite Hcat. by rewrite <- app_assoc.
Qed.

Lemma split_from_trailing_spaces cur s ws :
  forallb py_isspace ws = true →
  split_from cur (s ++ ws) = split_from cur s.
Proof.
  intros Hws. revert cur. induction s as [|c s IH]; intros cur.
  - cbn [app]. revert cur. induction ws as [|c ws IHws]; intros cur; [done|].
    cbn [forallb] in Hws. apply andb_prop in Hws as [Hc Hws].
    cbn [split_from]. rewrite Hc. specialize (IHws Hws []).
    rewrite IHws. by destruct cur.
  - cbn [app split_from]. destruct (py_isspace c); [|apply IH].
    rewrite IH. by destruct cur.
Qed.

Lemma str_split_rstrip s : str_split (str_rstrip s) = str_split s.
Proof.
  destruct (str_rstrip_suffix s) as (ws & Hs & Hws).
  unfold str_split. rewrite Hs at 2. by rewrite split_from_trailing_spaces.
Qed.

(** ** Directories *)

Lemma path_prefixes_self (d : path) : d ≠ [] → d ∈ path_prefixes d.
Proof.
  induction d as [|c d IH]; [done|]. intros _. cbn [path_prefixes].
  destruct d as [|c' d]; [by left|]. right.
  apply list_elem_of_fmap. exists (c' :: d). split; [done|]. by apply IH.
Qed.

Lemma path_prefixes_length (d p : path) :
  p ∈ path_prefixes d → (length p ≤ length d)%nat.
Proof.
  revert p. induction d as [|c d IH]; intros p; cbn [path_prefixes].
  - by intros ?%elem_of_nil.
  - intros [->|Hp]%elem_of_cons; [simpl; lia|].
    apply list_elem_of_fmap in Hp as (q & -> & Hq). apply IH in Hq. simpl. lia.
Qed.

Lemma path_join_not_prefix (d : path) name : d // name ∉ path_prefixes d.
Proof.
  intros Hin%path_prefixes_length. unfold path_join in Hin.
  rewrite length_app in Hin. simpl in Hin. lia.
Qed.

(** The cases of a method, call by call: [method_cases] computes between
    the calls, [method_steps] only reduces the matches on what was returned. *)
Ltac method_cases :=
  repeat (first [ progress cbn in * | case_match; simplify_eq ]).

Ltac method_steps :=
  repeat (first [ progress cbv beta iota delta [fst snd] in *
                | case_match; simplify_eq ]).

Section MoreProperties.
Context `{VI : Vocabulary.Internals} `{SK : Sklearn} `{JC : JsonCodec}
        `{CO : Constants}.

(** ** [_splitify] and [_load_text] *)

(** X1. [_splitify] gives one token list per line. Every token is non-empty
    and holds no whitespace, and the tokens of a line put end to end are the
    line without its whitespace: nothing but whitespace is lost, and a line
    of whitespace has no token. *)
Theorem splitify_tokens_are_words (data : list pystr) :
  Forall2 (fun line tokens =>
             Forall (fun t => t ≠ [] ∧ Forall (fun c => py_isspace c = false) t)
                    tokens
             ∧ List.concat tokens = filter (fun c => py_isspace c = false) line)
          data (_splitify data).
Proof.
  unfold _splitify. apply Forall2_fmap_r, Forall_Forall2_diag, Forall_forall.
  intros line _. apply (split_from_tokens [] line). constructor.
Qed.

(** X2. The entries [_load_text] returns have the tokens of the lines of the
    file: trimming the end of a line loses no token, so that tokenizing what
    was loaded is tokenizing the file line by line. *)
Theorem load_text_keeps_tokens p (w : world) text :
  files w !! p = Some text →
  ∃ entries,
    _load_text p w = (Ok entries, w)
    ∧ _splitify entries = _splitify (file_lines text).
Proof.
  intros Hf. eexists. split; [by apply load_text_lines|].
  unfold _splitify. rewrite <- list_fmap_compose.
  apply Forall_fmap_ext, file_lines_Forall. intros s'. unfold compose.
  destruct (readline_shape s') as [_ <-]. apply str_split_rstrip.
Qed.

(** X3. [_load_text] reads and never writes: whether it returns or raises,
    the world is as it was. On a path that holds no file it raises
    [IOError], from the count of the lines, before the file is opened for
    reading. *)
Theorem load_text_reads_only p (w : world) :
  (_load_text p w).2 = w
  ∧ (files w !! p = None →
     get_filelines p w
     = (Raise (Exn IOError (Some "No such file or directory")), w)
     ∧ (_load_text p w).1
       = Raise (Exn IOError (Some "No such file or directory"))).
Proof.
  split.
  - destruct (files w !! p) as [text|] eqn:Hf.
    + by rewrite (load_text_lines p w text Hf).
    + by rewrite (load_text_unreadable p w Hf).
  - intros Hf. split.
    + unfold get_filelines, open_read. st_run. by rewrite Hf.
    + by rewrite (load_text_unreadable p w Hf).
Qed.

(** X4. Once [_build_dataset_dir] has run on a directory, [_save_as_json]
    at a name in that directory, where no directory stands, returns; the
    file then reads back as the dump of the object, it replaces what the
    path held, and every other file is as it was before. *)
Theorem save_as_json_after_build_dataset_dir (obj : dataset) (d : path) name
    (w : world) :
  d // name ∉ dirs w →
  ∃ w',
    _save_as_json obj (d // name) (_build_dataset_dir d w).2 = (Ok tt, w')
    ∧ open_read (d // name) w' = (Ok (json_dumps obj), w')
    ∧ (∀ q, q ≠ d // name → files w' !! q = files w !! q)
    ∧ dirs w' = dirs (_build_dataset_dir d w).2.
Proof.
  intros Hfree. unfold _save_as_json, _build_dataset_dir, write_text,
    make_dir_if_not_exist. cbn [snd].
  assert (d // name ≠ []) as Hne by (unfold path_join; by destruct d).
  remember (d // name) as pth eqn:Hp. destruct pth as [|c q]; [done|].
  rewrite Hp in *. clear Hp c q.
  unfold path_join at 1. rewrite removelast_last.
  assert (dir_exists {| files := files w;
                        dirs := dirs w ∪ list_to_set (path_prefixes d);
                        np_random := np_random w |} d = true) as ->.
  { unfold dir_exists. cbn [dirs]. destruct d as [|c' d']; [done|].
    apply orb_true_iff. right. apply bool_decide_eq_true.
    apply elem_of_union_r, elem_of_list_to_set. by apply path_prefixes_self. }
  cbn [dirs]. rewrite bool_decide_eq_false_2.
  2:{ intros [?|Hin%elem_of_list_to_set]%elem_of_union; [done|].
      by apply path_join_not_prefix in Hin. }
  cbn [andb negb]. eexists. split; [reflexivity|].
  split; [|split; [|reflexivity]].
  - unfold open_read. cbn [files]. by rewrite lookup_insert_eq.
  - intros q' Hq. cbn [files]. by rewrite lookup_insert_ne.
Qed.

(** ** Construction *)

(** X5. A NER builder for text files loads both files before it makes its
    dataset directory: when both are readable it returns a builder that
    holds their trimmed lines, the vocabularies it was given and no dataset
    path, in a world that has the directory; when one is missing it raises
    [IOError] and no directory is made. The two files need not have the same
    number of lines. *)
Theorem ner_init_loads_then_makes_directory ip lp iv lv dd (w : world) :
  NERDatasetBuilder.__init__ ip lp (py "text") iv lv dd w
  = match files w !! ip, files w !! lp with
    | Some input_text, Some label_text =>
        (Ok {| NERDatasetBuilder._input_path := ip;
               NERDatasetBuilder._label_path := lp;
               NERDatasetBuilder._file_type := py "text";
               NERDatasetBuilder._raw_input :=
                 map (fun l => str_rstrip (chomp l)) (file_lines input_text);
               NERDatasetBuilder._raw_label :=
                 map (fun l => str_rstrip (chomp l)) (file_lines label_text);
               NERDatasetBuilder._input_vocab := iv;
               NERDatasetBuilder._label_vocab := lv;
               NERDatasetBuilder._dataset_dir := dd;
               NERDatasetBuilder._train_data_path := [];
               NERDatasetBuilder._valid_data_path := [] |},
         {| files := files w;
            dirs := dirs w ∪ list_to_set (path_prefixes dd);
            np_random := np_random w |})
    | _, _ => (Raise (Exn IOError (Some "No such file or directory")), w)
    end.
Proof.
  unfold NERDatasetBuilder.__init__. rewrite bool_decide_eq_true_2 by done.
  st_run.
  destruct (files w !! ip) as [ti|] eqn:Hi.
  - rewrite (load_text_lines ip w ti Hi).
    destruct (files w !! lp) as [tl|] eqn:Hl.
    + by rewrite (load_text_lines lp w tl Hl).
    + by rewrite (load_text_unreadable lp w Hl).
  - by rewrite (load_text_unreadable ip w Hi).
Qed.

(** X6. An SLU builder for text files loads its three files before it makes
    its dataset directory: when all are readable it returns a builder that
    holds their trimmed lines, the vocabularies it was given and no dataset
    path, in a world that has the directory; when one is missing it raises
    [IOError] and no directory is made. The line counts are not compared. *)
Theorem slu_init_loads_then_makes_directory ip lp cp iv lv cv dd (w : world) :
  SLUDatasetBuilder.__init__ ip lp cp (py "text") iv lv cv dd w
  = match files w !! ip, files w !! lp, files w !! cp with
    | Some input_text, Some label_text, Some class_text =>
        (Ok {| SLUDatasetBuilder._input_path := ip;
               SLUDatasetBuilder._label_path := lp;
               SLUDatasetBuilder._class_path := cp;
               SLUDatasetBuilder._file_type := py "text";
               SLUDatasetBuilder._raw_input :=
                 map (fun l => str_rstrip (chomp l)) (file_lines input_text);
               SLUDatasetBuilder._raw_label :=
                 map (fun l => str_rstrip (chomp l)) (file_lines label_text);
               SLUDatasetBuilder._raw_class :=
                 map (fun l => str_rstrip (chomp l)) (file_lines class_text);
               SLUDatasetBuilder._input_vocab := iv;
               SLUDatasetBuilder._label_vocab := lv;
               SLUDatasetBuilder._class_vocab := cv;
               SLUDatasetBuilder._dataset_dir := dd;
               SLUDatasetBuilder._train_data_path := [];
               SLUDatasetBuilder._valid_data_path := [] |},
         {| files := files w;
            dirs := dirs w ∪ list_to_set (path_prefixes dd);
            np_random := np_random w |})
    | _, _, _ => (Raise (Exn IOError (Some "No such file or directory")), w)
    end.
Proof.
  unfold SLUDatasetBuilder.__init__. rewrite bool_decide_eq_true_2 by done.
  st_run.
  destruct (files w !! ip) as [ti|] eqn:Hi.
  - rewrite (load_text_lines ip w ti Hi).
    destruct (files w !! lp) as [tl|] eqn:Hl.
    + rewrite (load_text_lines lp w tl Hl).
      destruct (files w !! cp) as [tc|] eqn:Hc.
      * by rewrite (load_text_lines cp w tc Hc).
      * by rewrite (load_text_unreadable cp w Hc).
    + by rewrite (load_text_unreadable lp w Hl).
  - by rewrite (load_text_unreadable ip w Hi).
Qed.

(** ** [build_vocabulary] *)

(** X7. On a builder whose dataset directory is a [Path], as the default of
    the constructor is and as the builder state here has it,
    [build_vocabulary] builds its vocabularies anew: what it does and what
    it leaves does not depend on the vocabularies the builder held, those
    given to the constructor included. (A [str] as dataset directory is
    outside this statement: the [/] of the first line then raises
    [TypeError] and the vocabularies stay.) *)
Theorem build_vocabulary_replaces_vocabularies (nb : NERDatasetBuilder.t)
    (sb : SLUDatasetBuilder.t) iv lv cv max_size min_freq (w : world) :
  NERDatasetBuilder.build_vocabulary max_size min_freq
    (NERDatasetBuilder.set_input_vocab iv
       (NERDatasetBuilder.set_label_vocab lv nb), w)
  = NERDatasetBuilder.build_vocabulary max_size min_freq (nb, w)
  ∧ SLUDatasetBuilder.build_vocabulary max_size min_freq
      (SLUDatasetBuilder.set_input_vocab iv
         (SLUDatasetBuilder.set_label_vocab lv
            (SLUDatasetBuilder.set_class_vocab cv sb)), w)
    = SLUDatasetBuilder.build_vocabulary max_size min_freq (sb, w).
Proof. split; reflexivity. Qed.

(** X8. When fitting the input vocabulary raises, [build_vocabulary] raises
    the same error and writes nothing, and the builder is left holding the
    two vocabularies as created, with empty mappings: the check of
    [build_trainable_dataset] passes from then on. *)
Theorem ner_build_vocabulary_failed_fit (b : NERDatasetBuilder.t) max_size
    min_freq (w : world) e :
  Vocabulary.fit
    (Vocabulary.__init__ (NERDatasetBuilder.input_vocab_kwargs max_size min_freq))
    (str_list_list (_splitify (NERDatasetBuilder._raw_input b))) = Raise e →
  ∃ b',
    NERDatasetBuilder.build_vocabulary max_size min_freq (b, w) = (Raise e, (b', w))
    ∧ NERDatasetBuilder._input_vocab b'
      = Some (Vocabulary.__init__
                (NERDatasetBuilder.input_vocab_kwargs max_size min_freq))
    ∧ NERDatasetBuilder._label_vocab b'
      = Some (Vocabulary.__init__ NERDatasetBuilder.label_vocab_kwargs)
    ∧ is_none (NERDatasetBuilder._input_vocab b')
      || is_none (NERDatasetBuilder._label_vocab b') = false.
Proof.
  intros Hfit. eexists.
  unfold NERDatasetBuilder.build_vocabulary, fit_attr. st_run. cbn.
  rewrite Hfit. split; [reflexivity|]. by cbn.
Qed.

(** What a write leaves. *)
Lemma write_text_Ok p text (w w' : world) :
  write_text p text w = (Ok tt, w') →
  files w' = <[p := text]> (files w) ∧ dirs w' = dirs w
  ∧ np_random w' = np_random w.
Proof.
  unfold write_text. destruct p; [done|].
  destruct (_ && _); [|done]. by intros [= <-].
Qed.


(** X9. When [build_vocabulary] returns, the builder holds the vocabularies
    fitted on the token lists of its input and label lines, everything else
    in it is as before, and the label vocabulary file holds the JSON of the
    label vocabulary, the input vocabulary file that of the input vocabulary
    (when the two file names differ); no other file has changed. *)
Theorem ner_build_vocabulary_returns (b b' : NERDatasetBuilder.t) max_size
    min_freq (w w' : world) :
  NERDatasetBuilder.build_vocabulary max_size min_freq (b, w) = (Ok tt, (b', w')) →
  ∃ iv lv,
    Vocabulary.fit
      (Vocabulary.__init__ (NERDatasetBuilder.input_vocab_kwargs max_size min_freq))
      (str_list_list (_splitify (NERDatasetBuilder._raw_input b))) = Ok iv
    ∧ Vocabulary.fit (Vocabulary.__init__ NERDatasetBuilder.label_vocab_kwargs)
        (str_list_list (_splitify (NERDatasetBuilder._raw_label b))) = Ok lv
    ∧ b' = NERDatasetBuilder.set_input_vocab (Some iv)
             (NERDatasetBuilder.set_label_vocab (Some lv) b)
    ∧ files w' !! (NERDatasetBuilder._dataset_dir b // TAG_VOCAB_FILENAME)
      = Some (Vocabulary.dumps lv)
    ∧ (INPUT_VOCAB_FILENAME ≠ TAG_VOCAB_FILENAME →
       files w' !! (NERDatasetBuilder._dataset_dir b // INPUT_VOCAB_FILENAME)
       = Some (Vocabulary.dumps iv))
    ∧ (∀ q, q ≠ NERDatasetBuilder._dataset_dir b // INPUT_VOCAB_FILENAME →
            q ≠ NERDatasetBuilder._dataset_dir b // TAG_VOCAB_FILENAME →
            files w' !! q = files w !! q).
Proof.
  unfold NERDatasetBuilder.build_vocabulary, fit_attr, to_json_attr.
  st_run. cbn. method_cases.
  all: intros; simplify_eq.
  repeat match goal with u : unit |- _ => destruct u end.
  match goal with
  | Hi : Vocabulary.to_json ?iv _ w = (Ok tt, ?w0),
    Hl : Vocabulary.to_json ?lv _ ?w0 = (Ok tt, w') |- _ =>
      exists iv, lv; unfold Vocabulary.to_json in Hi, Hl;
      apply write_text_Ok in Hi as (Hf0 & _ & _);
      apply write_text_Ok in Hl as (Hf' & _ & _)
  end.
  repeat split; try reflexivity.
  - rewrite Hf'. apply lookup_insert_eq.
  - intros Hne. rewrite Hf', Hf0. rewrite lookup_insert_ne.
    + apply lookup_insert_eq.
    + unfold path_join. by intros [_ ?]%app_inj_tail.
  - intros q Hqi Hql. rewrite Hf', Hf0. by rewrite !lookup_insert_ne.
Qed.

(** ** [build_trainable_dataset] *)

Lemma numerize_from_text_length data vocab out :
  _numerize_from_text data vocab = Ok out → length out = length data.
Proof.
  rewrite numerize_from_text_mapM. intros Hm%mapM_result_Ok.
  symmetry. by eapply Forall2_length.
Qed.

Lemma selects_length {A} indices (stream part : list A) :
  selects indices stream part → length part = length indices.
Proof. intros Hs. symmetry. by eapply Forall2_length. Qed.

Lemma ner_split_seeded_world input label test_size seed (w w' : world) r :
  NERDatasetBuilder._split_into_valid_and_train input label test_size
    (Some seed) w = (r, w') → w' = w.
Proof.
  intros Heq. pose proof (proj2 (ner_split_seeded input label test_size seed w w)) as Hw.
  by rewrite Heq in Hw.
Qed.

Lemma slu_split_seeded_world input label cls test_size seed (w w' : world) r :
  SLUDatasetBuilder._split_into_valid_and_train input label cls test_size
    (Some seed) w = (r, w') → w' = w.
Proof.
  intros Heq.
  pose proof (proj2 (slu_split_seeded input label cls test_size seed w w)) as Hw.
  by rewrite Heq in Hw.
Qed.

(** X10. When [build_trainable_dataset] returns, the two files hold the
    JSON of the numerized partitions: there are the train and the test
    indices drawn from [RANDOM_SEED] for the number of input lines, the
    input and label lines at the train indices and those at the test
    indices, and the four results of [_numerize_from_text] on them against
    the builder's vocabularies; the validation file holds the dump of the
    dataset with the last two as [inputs] and [entities], the train file
    (when the two paths differ) that of the first two. The builder has one
    more train path and one more validation path and is otherwise as
    before; in each dataset [inputs] and [entities] have the same number of
    sequences; no other file has changed. *)
Theorem ner_build_trainable_dataset_returns (b b' : NERDatasetBuilder.t) tp vp
    (w w' : world) :
  let train_path :=
    default (NERDatasetBuilder._dataset_dir b // TRAIN_DATASET_FILENAME) tp in
  let valid_path :=
    default (NERDatasetBuilder._dataset_dir b // VALIDATION_DATASET_FILENAME) vp in
  NERDatasetBuilder.build_trainable_dataset tp vp (b, w) = (Ok tt, (b', w')) →
  ∃ train test input_train label_train input_test label_test ti te vi ve,
    (shuffle_split (rng_seed RANDOM_SEED)
       (length (NERDatasetBuilder._raw_input b)) DEFAULT_TEST_SIZE).1
    = Ok (train, test)
    ∧ selects train (NERDatasetBuilder._raw_input b) input_train
    ∧ selects train (NERDatasetBuilder._raw_label b) label_train
    ∧ selects test (NERDatasetBuilder._raw_input b) input_test
    ∧ selects test (NERDatasetBuilder._raw_label b) label_test
    ∧ _numerize_from_text input_train (NERDatasetBuilder._input_vocab b) = Ok ti
    ∧ _numerize_from_text label_train (NERDatasetBuilder._label_vocab b) = Ok te
    ∧ _numerize_from_text input_test (NERDatasetBuilder._input_vocab b) = Ok vi
    ∧ _numerize_from_text label_test (NERDatasetBuilder._label_vocab b) = Ok ve
    ∧ b' = NERDatasetBuilder.append_valid_data_path valid_path
             (NERDatasetBuilder.append_train_data_path train_path b)
    ∧ files w' !! valid_path
      = Some (json_dumps (<["entities" := ve]> (<["inputs" := vi]> ∅)))
    ∧ (train_path ≠ valid_path →
       files w' !! train_path
       = Some (json_dumps (<["entities" := te]> (<["inputs" := ti]> ∅))))
    ∧ (∀ q, q ≠ train_path → q ≠ valid_path → files w' !! q = files w !! q)
    ∧ length ti = length te ∧ length vi = length ve.
Proof.
  intros train_path valid_path.
  match goal with |- _ → ?G => set (concl := G) end.
  unfold NERDatasetBuilder.build_trainable_dataset, _save_as_json.
  st_run. method_steps.
  all: intros; simplify_eq.
  all: subst concl train_path valid_path; cbn [from_option id].
  all: repeat match goal with u : unit |- _ => destruct u end.
  all: match goal with
       | Hs : NERDatasetBuilder._split_into_valid_and_train _ _ _ _ _
              = (Ok _, _) |- _ =>
           pose proof (ner_split_seeded_world _ _ _ _ _ _ _ Hs); subst;
           apply (f_equal fst) in Hs; cbn [fst] in Hs;
           apply ner_split_Ok in Hs
             as (train & test & Hdraw & Hs1 & Hs2 & Hs3 & Hs4)
       end.
  all: match goal with
       | Ht : write_text _ (json_dumps (<[_ := ?te]> (<[_ := ?ti]> ∅))) _
              = (Ok tt, ?w1),
         Hv : write_text _ (json_dumps (<[_ := ?ve]> (<[_ := ?vi]> ∅))) ?w1
              = (Ok tt, _) |- _ =>
           exists train, test; eexists _, _, _, _; exists ti, te, vi, ve;
           apply write_text_Ok in Ht as (Hf1 & _ & _);
           apply write_text_Ok in Hv as (Hf' & _ & _)
       end.
  all: split; [exact Hdraw|].
  all: do 4 (split; [eassumption|]).
  all: do 4 (split; [eassumption|]).
  all: split; [reflexivity|]; rewrite Hf', Hf1.
  all: split; [apply lookup_insert_eq|].
  all: split; [intros Hne; by rewrite lookup_insert_ne, lookup_insert_eq|].
  all: split; [intros q Hq1 Hq2; by rewrite !lookup_insert_ne|].
  all: repeat match goal with
              | Hn : _numerize_from_text _ _ = Ok _ |- _ =>
                  apply numerize_from_text_length in Hn
              | Hs : selects _ _ _ |- _ => apply selects_length in Hs
              end.
  all: split; congruence.
Qed.


(** X12. The builder does not compare its streams when it is made, and
    [build_trainable_dataset] on input and label streams of different
    lengths, vocabularies present, raises the [ValueError] of the split,
    with its message; nothing is written and no path is recorded. *)
Theorem ner_unequal_streams_raise (b : NERDatasetBuilder.t) tp vp (w : world) :
  is_none (NERDatasetBuilder._input_vocab b)
  || is_none (NERDatasetBuilder._label_vocab b) = false →
  length (NERDatasetBuilder._raw_label b) ≠ length (NERDatasetBuilder._raw_input b) →
  NERDatasetBuilder.build_trainable_dataset tp vp (b, w)
  = (Raise (Exn ValueError
              (Some "Found input variables with inconsistent numbers of samples")),
     (b, w)).
Proof.
  intros Hc Hlen.
  unfold NERDatasetBuilder.build_trainable_dataset,
    NERDatasetBuilder._split_into_valid_and_train, train_test_split.
  st_run. rewrite Hc. cbn [forallb].
  rewrite (proj2 (Nat.eqb_neq _ _) Hlen). by rewrite andb_false_r.
Qed.

(** What [build_trainable_dataset] of the SLU builder has done when it
    returns: the partitions drawn, their six streams numerized, the two
    files written and the paths recorded. *)
Lemma slu_build_trainable_dataset_Ok (b b' : SLUDatasetBuilder.t) tp vp
    (w w' : world) :
  let train_path :=
    default (SLUDatasetBuilder._dataset_dir b // TRAIN_DATASET_FILENAME) tp in
  let valid_path :=
    default (SLUDatasetBuilder._dataset_dir b // VALIDATION_DATASET_FILENAME) vp in
  SLUDatasetBuilder.build_trainable_dataset tp vp (b, w) = (Ok tt, (b', w')) →
  ∃ train test input_train label_train class_train
    input_test label_test class_test ti ts tc vi vs vc,
    (shuffle_split (rng_seed RANDOM_SEED)
       (length (SLUDatasetBuilder._raw_input b)) DEFAULT_TEST_SIZE).1
    = Ok (train, test)
    ∧ (selects train (SLUDatasetBuilder._raw_input b) input_train
       ∧ selects train (SLUDatasetBuilder._raw_label b) label_train
       ∧ selects train (SLUDatasetBuilder._raw_class b) class_train)
    ∧ (selects test (SLUDatasetBuilder._raw_input b) input_test
       ∧ selects test (SLUDatasetBuilder._raw_label b) label_test
       ∧ selects test (SLUDatasetBuilder._raw_class b) class_test)
    ∧ (_numerize_from_text input_train (SLUDatasetBuilder._input_vocab b) = Ok ti
       ∧ _numerize_from_text label_train (SLUDatasetBuilder._label_vocab b) = Ok ts
       ∧ _numerize_from_text class_train (SLUDatasetBuilder._class_vocab b) = Ok tc)
    ∧ (_numerize_from_text input_test (SLUDatasetBuilder._input_vocab b) = Ok vi
       ∧ _numerize_from_text label_test (SLUDatasetBuilder._label_vocab b) = Ok vs
       ∧ _numerize_from_text class_test (SLUDatasetBuilder._class_vocab b) = Ok vc)
    ∧ b' = SLUDatasetBuilder.append_valid_data_path valid_path
             (SLUDatasetBuilder.append_train_data_path train_path b)
    ∧ files w' !! valid_path
      = Some (json_dumps (<["intents" := vc]>
                            (<["slots" := vs]> (<["inputs" := vi]> ∅))))
    ∧ (train_path ≠ valid_path →
       files w' !! train_path
       = Some (json_dumps (<["intents" := tc]>
                             (<["slots" := ts]> (<["inputs" := ti]> ∅)))))
    ∧ (∀ q, q ≠ train_path → q ≠ valid_path → files w' !! q = files w !! q).
Proof.
  intros train_path valid_path.
  match goal with |- _ → ?G => set (concl := G) end.
  unfold SLUDatasetBuilder.build_trainable_dataset, _save_as_json.
  st_run. method_steps.
  all: intros; simplify_eq.
  all: subst concl train_path valid_path; cbn [from_option id].
  all: repeat match goal with u : unit |- _ => destruct u end.
  all: match goal with
       | Hs : SLUDatasetBuilder._split_into_valid_and_train _ _ _ _ _ _
              = (Ok _, _) |- _ =>
           pose proof (slu_split_seeded_world _ _ _ _ _ _ _ _ Hs); subst;
           apply (f_equal fst) in Hs; cbn [fst] in Hs;
           apply slu_split_Ok in Hs
             as (train & test & Hdraw & Hs1 & Hs2 & Hs3 & Hs4 & Hs5 & Hs6)
       end.
  all: match goal with
       | Ht : write_text _
                (json_dumps (<[_ := ?tc]> (<[_ := ?ts]> (<[_ := ?ti]> ∅)))) _
              = (Ok tt, ?w1),
         Hv : write_text _
                (json_dumps (<[_ := ?vc]> (<[_ := ?vs]> (<[_ := ?vi]> ∅)))) ?w1
              = (Ok tt, _) |- _ =>
           exists train, test; eexists _, _, _, _, _, _;
           exists ti, ts, tc, vi, vs, vc;
           apply write_text_Ok in Ht as (Hf1 & _ & _);
           apply write_text_Ok in Hv as (Hf' & _ & _)
       end.
  all: split; [exact Hdraw|].
  all: do 2 (split; [repeat split; eassumption|]).
  all: do 2 (split; [repeat split; eassumption|]).
  all: split; [reflexivity|]; rewrite Hf', Hf1.
  all: split; [apply lookup_insert_eq|].
  all: split; [intros Hne; by rewrite lookup_insert_ne, lookup_insert_eq|].
  all: intros q Hq1 Hq2; by rewrite !lookup_insert_ne.
Qed.

(** X13. When [build_trainable_dataset] of the SLU builder returns, the two
    files hold the JSON of the numerized partitions: there are the train
    and the test indices drawn from [RANDOM_SEED] for the number of input
    lines, the input, label and class lines at the train indices and those
    at the test indices, and the six results of [_numerize_from_text] on
    them against the builder's vocabularies; the validation file holds the
    dump of the dataset with the last three as [inputs], [slots] and
    [intents], the train file (when the two paths differ) that of the first
    three. The builder has one more train path and one more validation path
    and is otherwise as before; in each dataset the three fields have the
    same number of sequences; no other file has changed. *)
Theorem slu_build_trainable_dataset_returns (b b' : SLUDatasetBuilder.t) tp vp
    (w w' : world) :
  let train_path :=
    default (SLUDatasetBuilder._dataset_dir b // TRAIN_DATASET_FILENAME) tp in
  let valid_path :=
    default (SLUDatasetBuilder._dataset_dir b // VALIDATION_DATASET_FILENAME) vp in
  SLUDatasetBuilder.build_trainable_dataset tp vp (b, w) = (Ok tt, (b', w')) →
  ∃ train test input_train label_train class_train
    input_test label_test class_test ti ts tc vi vs vc,
    (shuffle_split (rng_seed RANDOM_SEED)
       (length (SLUDatasetBuilder._raw_input b)) DEFAULT_TEST_SIZE).1
    = Ok (train, test)
    ∧ (selects train (SLUDatasetBuilder._raw_input b) input_train
       ∧ selects train (SLUDatasetBuilder._raw_label b) label_train
       ∧ selects train (SLUDatasetBuilder._raw_class b) class_train)
    ∧ (selects test (SLUDatasetBuilder._raw_input b) input_test
       ∧ selects test (SLUDatasetBuilder._raw_label b) label_test
       ∧ selects test (SLUDatasetBuilder._raw_class b) class_test)
    ∧ (_numerize_from_text input_train (SLUDatasetBuilder._input_vocab b) = Ok ti
       ∧ _numerize_from_text label_train (SLUDatasetBuilder._label_vocab b) = Ok ts
       ∧ _numerize_from_text class_train (SLUDatasetBuilder._class_vocab b) = Ok tc)
    ∧ (_numerize_from_text input_test (SLUDatasetBuilder._input_vocab b) = Ok vi
       ∧ _numerize_from_text label_test (SLUDatasetBuilder._label_vocab b) = Ok vs
       ∧ _numerize_from_text class_test (SLUDatasetBuilder._class_vocab b) = Ok vc)
    ∧ b' = SLUDatasetBuilder.append_valid_data_path valid_path
             (SLUDatasetBuilder.append_train_data_path train_path b)
    ∧ files w' !! valid_path
      = Some (json_dumps (<["intents" := vc]>
                            (<["slots" := vs]> (<["inputs" := vi]> ∅))))
    ∧ (train_path ≠ valid_path →
       files w' !! train_path
       = Some (json_dumps (<["intents" := tc]>
                             (<["slots" := ts]> (<["inputs" := ti]> ∅)))))
    ∧ (∀ q, q ≠ train_path → q ≠ valid_path → files w' !! q = files w !! q)
    ∧ (length ti = length ts ∧ length ts = length tc)
    ∧ (length vi = length vs ∧ length vs = length vc).
Proof.
  intros train_path valid_path Hrun.
  destruct (slu_build_trainable_dataset_Ok b b' tp vp w w' Hrun)
    as (train & test & it & lt & ct & ie & le & ce & ti & ts & tc & vi & vs & vc
        & Hdraw & Htrain & Htest & Hnt & Hnv & Hb & Hv & Ht & Hq).
  exists train, test, it, lt, ct, ie, le, ce, ti, ts, tc, vi, vs, vc.
  do 9 (split; [assumption|]).
  destruct Htrain as (H1%selects_length & H2%selects_length & H3%selects_length).
  destruct Htest as (H4%selects_length & H5%selects_length & H6%selects_length).
  destruct Hnt as (N1%numerize_from_text_length & N2%numerize_from_text_length
                   & N3%numerize_from_text_length).
  destruct Hnv as (N4%numerize_from_text_length & N5%numerize_from_text_length
                   & N6%numerize_from_text_length).
  split; split; congruence.
Qed.


(** ** The loaders *)



(** X15. [build_data_loader] on a builder that has recorded no train path,
    or no validation path, as one on which [build_trainable_dataset] has not
    returned yet, raises [IndexError], for both builders; the builder and
    the world are as they were. *)
Theorem build_data_loader_needs_a_dataset (nb : NERDatasetBuilder.t)
    (sb : SLUDatasetBuilder.t) batch_size limit_pad_len enable_length
    (w : world) :
  (NERDatasetBuilder._train_data_path nb = []
   ∨ NERDatasetBuilder._valid_data_path nb = []) →
  (SLUDatasetBuilder._train_data_path sb = []
   ∨ SLUDatasetBuilder._valid_data_path sb = []) →
  NERDatasetBuilder.build_data_loader batch_size limit_pad_len enable_length (nb, w)
  = (Raise (Exn IndexError (Some "list index out of range")), (nb, w))
  ∧ SLUDatasetBuilder.build_data_loader batch_size limit_pad_len enable_length (sb, w)
    = (Raise (Exn IndexError (Some "list index out of range")), (sb, w)).
Proof.
  intros Hn Hs.
  unfold NERDatasetBuilder.build_data_loader, SLUDatasetBuilder.build_data_loader,
    loaders_over.
  st_run. split.
  - destruct Hn as [-> | ->]; [done|].
    by destruct (NERDatasetBuilder._train_data_path nb).
  - destruct Hs as [-> | ->]; [done|].
    by destruct (SLUDatasetBuilder._train_data_path sb).
Qed.



(** ** [build_instant_data_loader] *)


Lemma load_text_Ok p (w w' : world) entries :
  _load_text p w = (Ok entries, w') →
  w' = w
  ∧ ∃ text, files w !! p = Some text
            ∧ entries = map (fun l => str_rstrip (chomp l)) (file_lines text).
Proof.
  destruct (files w !! p) as [text|] eqn:Hf.
  - rewrite (load_text_lines p w text Hf). intros [= <- <-]. eauto.
  - by rewrite (load_text_unreadable p w Hf).
Qed.


(** X18. When [build_instant_data_loader] returns, the builder is as it was,
    the loader reads the data path (the one given, or the instant dataset of
    the dataset directory) with batch size 1, and the file at that path
    holds the JSON of a dataset with as many [inputs] as the input file has
    lines, as many [slots] as the label file and as many [intents] as the
    class file: the three counts are not compared. No other file has
    changed. *)
Theorem build_instant_data_loader_returns (b b' : SLUDatasetBuilder.t)
    ip lp cp dp (w w' : world) loader :
  let data_path :=
    default (SLUDatasetBuilder._dataset_dir b // INSTANT_DATASET_FILENAME) dp in
  SLUDatasetBuilder.build_instant_data_loader ip lp cp dp (b, w)
  = (Ok loader, (b', w')) →
  b' = b
  ∧ loader = {| loader_json_path := data_path; loader_batch_size := 1 |}
  ∧ ∃ input_text label_text class_text inputs slots intents,
      files w !! ip = Some input_text
      ∧ files w !! lp = Some label_text
      ∧ files w !! cp = Some class_text
      ∧ files w' !! data_path
        = Some (json_dumps (<["intents" := intents]>
                              (<["slots" := slots]> (<["inputs" := inputs]> ∅))))
      ∧ length inputs = length (file_lines input_text)
      ∧ length slots = length (file_lines label_text)
      ∧ length intents = length (file_lines class_text)
      ∧ (∀ q, q ≠ data_path → files w' !! q = files w !! q).
Proof.
  intros data_path.
  unfold SLUDatasetBuilder.build_instant_data_loader, _save_as_json.
  st_run. method_steps.
  all: intros; simplify_eq.
  all: subst data_path; cbn [from_option id].
  all: repeat match goal with u : unit |- _ => destruct u end.
  all: repeat match goal with
              | Hl : _load_text _ _ = (Ok _, _) |- _ =>
                  apply load_text_Ok in Hl as (-> & ? & ? & ->)
              | Hn : _numerize_from_text _ _ = Ok _ |- _ =>
                  apply numerize_from_text_length in Hn;
                  rewrite length_map in Hn
              | Ht : write_text _ _ _ = (Ok tt, _) |- _ =>
                  apply write_text_Ok in Ht as (Hf & _ & _)
              end.
  all: split; [reflexivity|]; split; [reflexivity|].
  all: eexists _, _, _, _, _, _; repeat split; try eassumption.
  all: try (rewrite Hf; apply lookup_insert_eq).
  all: intros q Hq; rewrite Hf; by rewrite lookup_insert_ne.
Qed.


(** What [build_instant_data_loader] has done when it returns: the three
    files loaded, their lines numerized, the dataset written. *)
Lemma build_instant_data_loader_Ok (b b' : SLUDatasetBuilder.t) ip lp cp dp
    (w w' : world) loader :
  let data_path :=
    default (SLUDatasetBuilder._dataset_dir b // INSTANT_DATASET_FILENAME) dp in
  SLUDatasetBuilder.build_instant_data_loader ip lp cp dp (b, w)
  = (Ok loader, (b', w')) →
  ∃ input_data label_data class_data inputs slots intents,
    _load_text ip w = (Ok input_data, w)
    ∧ _load_text lp w = (Ok label_data, w)
    ∧ _load_text cp w = (Ok class_data, w)
    ∧ _numerize_from_text input_data (SLUDatasetBuilder._input_vocab b) = Ok inputs
    ∧ _numerize_from_text label_data (SLUDatasetBuilder._label_vocab b) = Ok slots
    ∧ _numerize_from_text class_data (SLUDatasetBuilder._class_vocab b) = Ok intents
    ∧ files w' !! data_path
      = Some (json_dumps (<["intents" := intents]>
                            (<["slots" := slots]> (<["inputs" := inputs]> ∅)))).
Proof.
  intros data_path.
  match goal with |- _ → ?G => set (concl := G) end.
  unfold SLUDatasetBuilder.build_instant_data_loader, _save_as_json.
  st_run. method_steps.
  all: intros; simplify_eq.
  all: subst concl data_path; cbn [from_option id].
  all: repeat match goal with u : unit |- _ => destruct u end.
  all: repeat match goal with
              | Hl : _load_text _ ?w0 = (Ok _, ?w1) |- _ =>
                  assert (w1 = w0) as -> by (by apply load_text_Ok in Hl as [? _]);
                  revert Hl
              end; intros.
  all: match goal with
       | Ht : write_text _ _ _ = (Ok tt, _) |- _ =>
           apply write_text_Ok in Ht as (Hf & _ & _)
       end.
  all: eexists _, _, _, _, _, _.
  all: do 6 (split; [first [eassumption | reflexivity]|]).
  all: rewrite Hf; apply lookup_insert_eq.
Qed.

(** ** What the class vocabulary is fitted on *)

(** When the input and the label vocabulary are fitted, the class
    vocabulary [build_vocabulary] leaves is [fit] on the raw class lines,
    whether the files are written or not, and an error of that [fit] is the
    error of the call. *)
Lemma slu_build_vocabulary_class_fit (s : SLUDatasetBuilder.t) max_size min_freq
    (w : world) iv lv :
  Vocabulary.fit
    (Vocabulary.__init__ (SLUDatasetBuilder.input_vocab_kwargs max_size min_freq))
    (str_list_list (_splitify (SLUDatasetBuilder._raw_input s))) = Ok iv →
  Vocabulary.fit (Vocabulary.__init__ SLUDatasetBuilder.label_vocab_kwargs)
    (str_list_list (_splitify (SLUDatasetBuilder._raw_label s))) = Ok lv →
  match Vocabulary.fit (Vocabulary.__init__ SLUDatasetBuilder.class_vocab_kwargs)
          (str_list (SLUDatasetBuilder._raw_class s)) with
  | Ok cv =>
      (SLUDatasetBuilder.build_vocabulary max_size min_freq (s, w)).2.1
      = SLUDatasetBuilder.set_class_vocab (Some cv)
          (SLUDatasetBuilder.set_label_vocab (Some lv)
             (SLUDatasetBuilder.set_input_vocab (Some iv) s))
  | Raise e =>
      SLUDatasetBuilder.build_vocabulary max_size min_freq (s, w)
      = (Raise e,
         (SLUDatasetBuilder.set_class_vocab
            (Some (Vocabulary.__init__ SLUDatasetBuilder.class_vocab_kwargs))
            (SLUDatasetBuilder.set_label_vocab (Some lv)
               (SLUDatasetBuilder.set_input_vocab (Some iv) s)), w))
  end.
Proof.
  intros Hi Hl.
  unfold SLUDatasetBuilder.build_vocabulary, fit_attr, to_json_attr,
    SLUDatasetBuilder.input_data, SLUDatasetBuilder.label_data,
    SLUDatasetBuilder.class_data.
  st_run. cbn. rewrite Hi. cbn. rewrite Hl. cbn.
  destruct (Vocabulary.fit _ (str_list _)) as [cv|e]; [|reflexivity].
  cbn.
  destruct (Vocabulary.to_json iv _ w) as [[[]|?] w1]; cbn; [|reflexivity].
  destruct (Vocabulary.to_json lv _ w1) as [[[]|?] w2]; cbn; [|reflexivity].
  by destruct (Vocabulary.to_json cv _ w2) as [[[]|?] w3].
Qed.

(** C3. In [SLUDatasetBuilder] the class vocabulary is fitted over the raw
    class lines and numerized over their tokens. [build_vocabulary] hands
    [fit] the list of the class lines themselves: once the input and the
    label vocabulary are fitted, on the token lists of their lines, the
    class vocabulary the builder is left with is the result of [fit] on the
    list of the raw class lines, and an error of that [fit] is the error of
    the call. [build_trainable_dataset] and [build_instant_data_loader],
    when they return, have written as [intents] the results of
    [to_indices] on the token lists of the class lines, those of each
    partition and those of the class file. For the class line at any
    position, the element fitted is the line, a string, the element
    numerized is the list of its tokens, and the two differ. *)
Theorem class_vocab_fitted_on_lines_numerized_on_tokens
    (s : SLUDatasetBuilder.t) max_size min_freq (w : world) i line :
  SLUDatasetBuilder._raw_class s !! i = Some line →
  (∃ fitted,
      SLUDatasetBuilder.class_data s = VList fitted
      ∧ fitted !! i = Some (VStr line))
  ∧ (∀ iv lv,
        Vocabulary.fit
          (Vocabulary.__init__
             (SLUDatasetBuilder.input_vocab_kwargs max_size min_freq))
          (str_list_list (_splitify (SLUDatasetBuilder._raw_input s))) = Ok iv →
        Vocabulary.fit
          (Vocabulary.__init__ SLUDatasetBuilder.label_vocab_kwargs)
          (str_list_list (_splitify (SLUDatasetBuilder._raw_label s))) = Ok lv →
        match Vocabulary.fit
                (Vocabulary.__init__ SLUDatasetBuilder.class_vocab_kwargs)
                (str_list (SLUDatasetBuilder._raw_class s)) with
        | Ok cv =>
            (SLUDatasetBuilder.build_vocabulary max_size min_freq (s, w)).2.1
            = SLUDatasetBuilder.set_class_vocab (Some cv)
                (SLUDatasetBuilder.set_label_vocab (Some lv)
                   (SLUDatasetBuilder.set_input_vocab (Some iv) s))
        | Raise e =>
            (SLUDatasetBuilder.build_vocabulary max_size min_freq (s, w)).1
            = Raise e
        end)
  ∧ (∀ tp vp s' w',
        SLUDatasetBuilder.build_trainable_dataset tp vp (s, w) = (Ok tt, (s', w')) →
        ∃ train test class_train class_test tc vc,
          (shuffle_split (rng_seed RANDOM_SEED)
             (length (SLUDatasetBuilder._raw_input s)) DEFAULT_TEST_SIZE).1
          = Ok (train, test)
          ∧ selects train (SLUDatasetBuilder._raw_class s) class_train
          ∧ selects test (SLUDatasetBuilder._raw_class s) class_test
          ∧ mapM (vocab_to_indices (SLUDatasetBuilder._class_vocab s))
              (_splitify class_train) = Ok tc
          ∧ mapM (vocab_to_indices (SLUDatasetBuilder._class_vocab s))
              (_splitify class_test) = Ok vc
          ∧ (∃ vi vs,
                files w'
                !! default (SLUDatasetBuilder._dataset_dir s
                            // VALIDATION_DATASET_FILENAME) vp
                = Some (json_dumps
                          (<["intents" := vc]>
                             (<["slots" := vs]> (<["inputs" := vi]> ∅)))))
          ∧ (default (SLUDatasetBuilder._dataset_dir s
                      // TRAIN_DATASET_FILENAME) tp
             ≠ default (SLUDatasetBuilder._dataset_dir s
                        // VALIDATION_DATASET_FILENAME) vp →
             ∃ ti ts,
               files w'
               !! default (SLUDatasetBuilder._dataset_dir s
                           // TRAIN_DATASET_FILENAME) tp
               = Some (json_dumps
                         (<["intents" := tc]>
                            (<["slots" := ts]> (<["inputs" := ti]> ∅))))))
  ∧ (∀ ip lp cp dp loader s' w',
        SLUDatasetBuilder.build_instant_data_loader ip lp cp dp (s, w)
        = (Ok loader, (s', w')) →
        ∃ class_lines intents inputs slots,
          _load_text cp w = (Ok class_lines, w)
          ∧ mapM (vocab_to_indices (SLUDatasetBuilder._class_vocab s))
              (_splitify class_lines) = Ok intents
          ∧ files w'
            !! default (SLUDatasetBuilder._dataset_dir s
                        // INSTANT_DATASET_FILENAME) dp
            = Some (json_dumps
                      (<["intents" := intents]>
                         (<["slots" := slots]> (<["inputs" := inputs]> ∅)))))
  ∧ _splitify (SLUDatasetBuilder._raw_class s) !! i = Some (str_split line)
  ∧ VStr line ≠ str_list (str_split line).
Proof.
  intros Hline. split; [|split; [|split; [|split; [|split]]]].
  - eexists. split; [reflexivity|]. by rewrite list_lookup_fmap, Hline.
  - intros iv lv Hi Hl.
    pose proof (slu_build_vocabulary_class_fit s max_size min_freq w iv lv Hi Hl)
      as Hfit.
    destruct (Vocabulary.fit _ (str_list _)) as [cv|e]; [exact Hfit|].
    by rewrite Hfit.
  - intros tp vp s' w' Hrun.
    destruct (slu_build_trainable_dataset_Ok s s' tp vp w w' Hrun)
      as (train & test & it & lt & ct & ie & le & ce & ti & ts & tc & vi & vs & vc
          & Hdraw & (_ & _ & Hct) & (_ & _ & Hce) & (_ & _ & Htc) & (_ & _ & Hvc)
          & _ & Hv & Ht & _).
    rewrite numerize_from_text_splitify in Htc, Hvc.
    exists train, test, ct, ce, tc, vc. repeat (split; [assumption|]).
    split; [by exists vi, vs|]. intros Hne. exists ti, ts. by apply Ht.
  - intros ip lp cp dp loader s' w' Hrun.
    destruct (build_instant_data_loader_Ok s s' ip lp cp dp w w' loader Hrun)
      as (id & ld & cd & inputs & slots & intents & _ & _ & Hcd & _ & _ & Hn & Hf).
    rewrite numerize_from_text_splitify in Hn.
    by exists cd, intents, inputs, slots.
  - unfold _splitify. by rewrite list_lookup_fmap, Hline.
  - discriminate.
Qed.
End MoreProperties.

Section MoreUtilsProperties.
Context `{VI : Vocabulary.Internals} `{BC : BuilderClasses}
        `{JC : JsonCodec} `{CO : Constants}.

(** ** [create_builder] and the vocabulary loaders *)

(** X20. [create_builder] looks its paths up in the configuration before it
    reads any file: with no vocabulary file configured, the first entry
    that is missing among those its task type needs (['input'] then
    ['label'] for ['ner'], ['input'] for ['word_segment'], ['input'],
    ['slots'] then ['intents'] for ['slu']) is raised as a [KeyError], and
    the world is as it was. *)
Theorem create_builder_missing_entry (type : pystr) (cfg : dataset_configs)
    deploy_path (w : world) key :
  cfg_paths cfg !! "vocab_path" = None →
  (type = py "ner" ∧ head (filter (fun k => cfg_paths cfg !! k = None)
                                  ["input"; "label"]) = Some key)
  ∨ (type = py "word_segment" ∧ key = "input" ∧ cfg_paths cfg !! "input" = None)
  ∨ (type = py "slu" ∧ head (filter (fun k => cfg_paths cfg !! k = None)
                                    ["input"; "slots"; "intents"]) = Some key) →
  create_builder type cfg deploy_path w = (Raise (Exn KeyError (Some key)), w).
Proof.
  intros Hv Hcases. unfold create_builder, config_get.
  rewrite (bool_decide_eq_false_2 (is_Some _)) by (rewrite Hv; by intros [? ?]).
  st_run.
  destruct Hcases as [[-> Hk]|[(-> & -> & Hk)|[-> Hk]]].
  - rewrite (bool_decide_eq_true_2 (py "ner" = py "ner")) by done.
    rewrite !filter_cons, filter_nil in Hk.
    destruct (cfg_paths cfg !! "input") as [i|].
    + destruct (decide (Some i = None)) as [?|_]; [done|].
      destruct (cfg_paths cfg !! "label") as [l|]; [done|].
      destruct (decide (None = None)) as [_|?]; [|done]. cbn in Hk; by simplify_eq.
    + destruct (decide (None = None)) as [_|?]; [|done]. cbn in Hk; by simplify_eq.
  - rewrite (bool_decide_eq_false_2 (py "word_segment" = py "ner")) by done.
    rewrite (bool_decide_eq_true_2 (py "word_segment" = py "word_segment")) by done.
    by rewrite Hk.
  - rewrite (bool_decide_eq_false_2 (py "slu" = py "ner")) by done.
    rewrite (bool_decide_eq_false_2 (py "slu" = py "word_segment")) by done.
    rewrite (bool_decide_eq_true_2 (py "slu" = py "slu")) by done.
    rewrite !filter_cons, filter_nil in Hk.
    destruct (cfg_paths cfg !! "input") as [i|].
    + destruct (decide (Some i = None)) as [?|_]; [done|].
      destruct (cfg_paths cfg !! "slots") as [sl|].
      * destruct (decide (Some sl = None)) as [?|_]; [done|].
        destruct (cfg_paths cfg !! "intents") as [it|]; [done|].
        destruct (decide (None = None)) as [_|?]; [|done]. cbn in Hk; by simplify_eq.
      * destruct (decide (None = None)) as [_|?]; [|done]. cbn in Hk; by simplify_eq.
    + destruct (decide (None = None)) as [_|?]; [|done]. cbn in Hk; by simplify_eq.
Qed.

Lemma load_vocab_file_world p (w : world) : (load_vocab_file p w).2 = w.
Proof.
  unfold load_vocab_file. st_run.
  pose proof (from_json_world (Vocabulary.__init__ Vocabulary.no_kwargs) p w) as Hw.
  destruct (Vocabulary.from_json _ p w) as [[?|?] ?]; by cbn in *.
Qed.

Lemma load_vocab_dir_world type dir_path (w : world) :
  (load_vocab_dir type dir_path w).2 = w.
Proof.
  unfold load_vocab_dir.
  destruct (bool_decide (type = py "ner") || bool_decide (type = py "word_segment")).
  - st_run.
    rewrite (from_json_eq _ (_ // INPUT_VOCAB_FILENAME)).
    destruct (Vocabulary.from_json _ (_ // INPUT_VOCAB_FILENAME) w).1; [|done].
    rewrite (from_json_eq _ (_ // TAG_VOCAB_FILENAME)).
    by destruct (Vocabulary.from_json _ (_ // TAG_VOCAB_FILENAME) w).1.
  - destruct (bool_decide (type = py "slu")); [|done]. st_run.
    rewrite (from_json_eq _ (_ // INPUT_VOCAB_FILENAME)).
    destruct (Vocabulary.from_json _ (_ // INPUT_VOCAB_FILENAME) w).1; [|done].
    rewrite (from_json_eq _ (_ // TAG_VOCAB_FILENAME)).
    destruct (Vocabulary.from_json _ (_ // TAG_VOCAB_FILENAME) w).1; [|done].
    rewrite (from_json_eq _ (_ // CLASS_VOCAB_FILENAME)).
    by destruct (Vocabulary.from_json _ (_ // CLASS_VOCAB_FILENAME) w).1.
Qed.

(** X23. Loading vocabularies reads and never writes: [load_vocab_file] and
    [load_vocab_dir] leave the world as it was, whatever the task type and
    whether they return or raise, at whichever file. The files are loaded in
    the order input, label, class, and [load_vocab_dir] raises the error of
    the first load that fails: that of the input vocabulary, else that of
    the label vocabulary, else, for ['slu'], that of the class vocabulary. *)
Theorem vocabulary_loading_reads_only (type : pystr) (dir_path file_path : path)
    (w : world) :
  let load name :=
    (Vocabulary.from_json (Vocabulary.__init__ Vocabulary.no_kwargs)
       (dir_path // "dataset" // name) w).1 in
  (load_vocab_file file_path w).2 = w
  ∧ (load_vocab_dir type dir_path w).2 = w
  ∧ ((type = py "ner" ∨ type = py "word_segment" ∨ type = py "slu") →
     (∀ e, load INPUT_VOCAB_FILENAME = Raise e →
           (load_vocab_dir type dir_path w).1 = Raise e)
     ∧ (∀ e, is_ok (load INPUT_VOCAB_FILENAME) = true →
             load TAG_VOCAB_FILENAME = Raise e →
             (load_vocab_dir type dir_path w).1 = Raise e)
     ∧ (∀ e, type = py "slu" →
             is_ok (load INPUT_VOCAB_FILENAME) = true →
             is_ok (load TAG_VOCAB_FILENAME) = true →
             load CLASS_VOCAB_FILENAME = Raise e →
             (load_vocab_dir type dir_path w).1 = Raise e)).
Proof.
  intros load. subst load. cbv beta.
  split; [apply load_vocab_file_world|].
  split; [apply load_vocab_dir_world|].
  intros Htype.
  assert (bool_decide (type = py "ner") || bool_decide (type = py "word_segment")
          = true
          ∨ (bool_decide (type = py "ner") || bool_decide (type = py "word_segment")
             = false ∧ bool_decide (type = py "slu") = true)) as Hb.
  { destruct Htype as [-> | [-> | ->]]; [by left| |by right].
    left. apply orb_true_r. }
  split; [|split].
  - intros e Hin. unfold load_vocab_dir.
    destruct Hb as [-> | [-> ->]]; st_run.
    all: by rewrite (from_json_eq _ (_ // INPUT_VOCAB_FILENAME)), Hin.
  - intros e Hin Hl. unfold load_vocab_dir.
    destruct Hb as [-> | [-> ->]]; st_run.
    all: rewrite (from_json_eq _ (_ // INPUT_VOCAB_FILENAME)).
    all: destruct (Vocabulary.from_json _ (_ // INPUT_VOCAB_FILENAME) w).1;
      [|done].
    all: by rewrite (from_json_eq _ (_ // TAG_VOCAB_FILENAME)), Hl.
  - intros e -> Hin Hl Hc. unfold load_vocab_dir. cbn [orb].
    rewrite (bool_decide_eq_false_2 (py "slu" = py "ner")) by done.
    rewrite (bool_decide_eq_false_2 (py "slu" = py "word_segment")) by done.
    rewrite (bool_decide_eq_true_2 (py "slu" = py "slu")) by done.
    cbn [orb]. st_run.
    rewrite (from_json_eq _ (_ // INPUT_VOCAB_FILENAME)).
    destruct (Vocabulary.from_json _ (_ // INPUT_VOCAB_FILENAME) w).1; [|done].
    rewrite (from_json_eq _ (_ // TAG_VOCAB_FILENAME)).
    destruct (Vocabulary.from_json _ (_ // TAG_VOCAB_FILENAME) w).1; [|done].
    by rewrite (from_json_eq _ (_ // CLASS_VOCAB_FILENAME)), Hc.
Qed.
End MoreUtilsProperties.

Section MoreRuns.
#[local] Existing Instances Demo.internals Demo.sklearn Demo.json
  Demo.constants Demo.builders.

Lemma load_text_keeps_tokens_witness :
  ∃ entries,
    _load_text ["input.txt"] Demo.text_world = (Ok entries, Demo.text_world)
    ∧ _splitify entries
      = [[py "book"; py "a"; py "flight"]; [py "rain"; py "today"]].
Proof.
  destruct (load_text_keeps_tokens ["input.txt"] Demo.text_world
              (py "book a flight " ++ [NL] ++ py "rain today" ++ [NL]))
    as (entries & Hload & Htok); [reflexivity|].
  exists entries. split; [exact Hload|]. rewrite Htok. vm_compute. reflexivity.
Defined.

Lemma load_text_reads_only_witness :
  _load_text ["nowhere.txt"] Demo.text_world
  = (Raise (Exn IOError (Some "No such file or directory")), Demo.text_world).
Proof.
  destruct (load_text_reads_only ["nowhere.txt"] Demo.text_world) as (Hw & He).
  destruct He as (_ & He); [reflexivity|].
  rewrite (surjective_pairing (_load_text _ _)). by rewrite Hw, He.
Defined.

Lemma save_as_json_after_build_dataset_dir_witness :
  ∃ w',
    _save_as_json ∅ (["dataset"; "ner"] // "train.json")
      (_build_dataset_dir ["dataset"; "ner"] Demo.empty_world).2 = (Ok tt, w')
    ∧ open_read (["dataset"; "ner"] // "train.json") w' = (Ok (json_dumps ∅), w').
Proof.
  destruct (save_as_json_after_build_dataset_dir ∅ ["dataset"; "ner"]
              "train.json" Demo.empty_world) as (w' & Hs & Hr & _).
  - apply not_elem_of_empty.
  - exists w'. split; [exact Hs|exact Hr].
Defined.

Lemma ner_build_vocabulary_returns_witness :
  files Demo.ner_vocabulary_run.2.2 !! ["dataset"; "ner"; "tag_vocab.json"]
  = Some (py "<pad>" ++ [NL] ++ py "<bos>" ++ [NL] ++ py "<eos>" ++ [NL]
          ++ py "O" ++ [NL] ++ py "B" ++ [NL]).
Proof.
  destruct (ner_build_vocabulary_returns Demo.ner_without_vocab
              Demo.ner_vocabulary_run.2.1 None 1 Demo.ner_dir_world
              Demo.ner_vocabulary_run.2.2)
    as (iv & lv & _ & Hl & _ & Hf & _); [vm_compute; reflexivity|].
  vm_compute in Hl. injection Hl as <-. vm_compute. reflexivity.
Defined.

Lemma ner_build_trainable_dataset_returns_witness :
  NERDatasetBuilder._train_data_path Demo.ner_dataset_run.2.1
  = [["dataset"; "ner"; "train_dataset.json"]]
  ∧ files Demo.ner_dataset_run.2.2 !! ["dataset"; "ner"; "valid_dataset.json"]
    = Some (json_dumps (<["entities" := [[3; 4]]]> (<["inputs" := [[3; 4]]]> ∅))).
Proof.
  destruct (ner_build_trainable_dataset_returns Demo.ner_vocabulary_run.2.1
              Demo.ner_dataset_run.2.1 None None Demo.ner_vocabulary_run.2.2
              Demo.ner_dataset_run.2.2)
    as (train & test & it & lt & ie & le & ti & te & vi & ve
        & Hdraw & _ & _ & Hie & Hle & _ & _ & Hvi & Hve & Hb & Hv & _);
    [vm_compute; reflexivity|].
  split; [rewrite Hb; vm_compute; reflexivity|].
  vm_compute in Hdraw. injection Hdraw as <- <-.
  apply Forall2_cons_inv_l in Hie as (x & ie' & Hx & Hie' & ->).
  apply Forall2_nil_inv_l in Hie' as ->.
  apply Forall2_cons_inv_l in Hle as (y & le' & Hy & Hle' & ->).
  apply Forall2_nil_inv_l in Hle' as ->.
  vm_compute in Hx. injection Hx as <-.
  vm_compute in Hy. injection Hy as <-.
  vm_compute in Hvi. injection Hvi as <-.
  vm_compute in Hve. injection Hve as <-.
  exact Hv.
Defined.


Lemma ner_unequal_streams_raise_witness :
  NERDatasetBuilder.build_trainable_dataset None None
    (Demo.ner_unequal, Demo.empty_world)
  = (Raise (Exn ValueError
              (Some "Found input variables with inconsistent numbers of samples")),
     (Demo.ner_unequal, Demo.empty_world)).
Proof.
  apply (ner_unequal_streams_raise Demo.ner_unequal None None Demo.empty_world).
  - reflexivity.
  - vm_compute. lia.
Defined.

Lemma slu_build_trainable_dataset_returns_witness :
  SLUDatasetBuilder._valid_data_path Demo.slu_dataset_run.2.1
  = [["dataset"; "slu"; "valid_dataset.json"]]
  ∧ files Demo.slu_dataset_run.2.2 !! ["dataset"; "slu"; "valid_dataset.json"]
    = Some (json_dumps (<["intents" := [[1]]]>
                          (<["slots" := [[3; 4]]]> (<["inputs" := [[5; 6]]]> ∅)))).
Proof.
  destruct (slu_build_trainable_dataset_returns Demo.slu_vocabulary_run.2.1
              Demo.slu_dataset_run.2.1 None None Demo.slu_vocabulary_run.2.2
              Demo.slu_dataset_run.2.2)
    as (train & test & it & lt & ct & ie & le & ce & ti & ts & tc & vi & vs & vc
        & Hdraw & _ & (Hie & Hle & Hce) & _ & (Hvi & Hvs & Hvc) & Hb & Hv & _);
    [vm_compute; reflexivity|].
  split; [rewrite Hb; vm_compute; reflexivity|].
  vm_compute in Hdraw. injection Hdraw as <- <-.
  apply Forall2_cons_inv_l in Hie as (x & ie' & Hx & Hie' & ->).
  apply Forall2_nil_inv_l in Hie' as ->.
  apply Forall2_cons_inv_l in Hle as (y & le' & Hy & Hle' & ->).
  apply Forall2_nil_inv_l in Hle' as ->.
  apply Forall2_cons_inv_l in Hce as (z & ce' & Hz & Hce' & ->).
  apply Forall2_nil_inv_l in Hce' as ->.
  vm_compute in Hx. injection Hx as <-.
  vm_compute in Hy. injection Hy as <-.
  vm_compute in Hz. injection Hz as <-.
  vm_compute in Hvi. injection Hvi as <-.
  vm_compute in Hvs. injection Hvs as <-.
  vm_compute in Hvc. injection Hvc as <-.
  exact Hv.
Defined.


Lemma build_data_loader_needs_a_dataset_witness :
  NERDatasetBuilder.build_data_loader 32 50 true
    (Demo.ner_without_vocab, Demo.empty_world)
  = (Raise (Exn IndexError (Some "list index out of range")),
     (Demo.ner_without_vocab, Demo.empty_world)).
Proof.
  apply (build_data_loader_needs_a_dataset Demo.ner_without_vocab
           Demo.slu_without_class_vocab 32 50 true Demo.empty_world).
  - left. reflexivity.
  - left. reflexivity.
Defined.



Lemma build_instant_data_loader_returns_witness :
  Demo.slu_instant_run.2.1 = Demo.slu_vocabulary_run.2.1
  ∧ is_Some (files Demo.slu_instant_run.2.2
             !! ["dataset"; "slu"; "instant_dataset.json"]).
Proof.
  destruct (build_instant_data_loader_returns Demo.slu_vocabulary_run.2.1
              Demo.slu_instant_run.2.1 ["input.txt"] ["label.txt"] ["class.txt"]
              None Demo.slu_vocabulary_run.2.2 Demo.slu_instant_run.2.2
              {| loader_json_path := ["dataset"; "slu"; "instant_dataset.json"];
                 loader_batch_size := 1 |})
    as (Hb & _ & ti & tl & tc & i & s & c & _ & _ & _ & Hf & _);
    [vm_compute; reflexivity|].
  split; [exact Hb|]. eexists. exact Hf.
Defined.


Lemma create_builder_missing_entry_witness :
  create_builder (py "ner") Demo.unlabelled_configs (DirStr "./tmp") Demo.text_world
  = (Raise (Exn KeyError (Some "label")), Demo.text_world).
Proof.
  apply (create_builder_missing_entry (py "ner") Demo.unlabelled_configs
           (DirStr "./tmp") Demo.text_world "label").
  - reflexivity.
  - left. split; reflexivity.
Defined.

Lemma class_vocab_fitted_on_lines_numerized_on_tokens_witness :
  SLUDatasetBuilder._raw_class Demo.slu_vocabulary_run.2.1 !! 0%nat
  = Some (py "flight")
  ∧ SLUDatasetBuilder._class_vocab
      (SLUDatasetBuilder.build_vocabulary None 1 Demo.slu_vocabulary_run.2).2.1
    = Some Demo.example_class_vocab
  ∧ Vocabulary.idx_to_token Demo.example_class_vocab = [py "flight"; py "weather"]
  ∧ (∃ vi vs,
        files Demo.slu_dataset_run.2.2 !! ["dataset"; "slu"; "valid_dataset.json"]
        = Some (json_dumps (<["intents" := [[1]]]>
                              (<["slots" := vs]> (<["inputs" := vi]> ∅)))))
  ∧ (∃ inputs slots,
        files Demo.slu_instant_run.2.2
        !! ["dataset"; "slu"; "instant_dataset.json"]
        = Some (json_dumps (<["intents" := [[0]; [1]]]>
                              (<["slots" := slots]> (<["inputs" := inputs]> ∅)))))
  ∧ VStr (py "flight") ≠ str_list (str_split (py "flight")).
Proof.
  destruct (class_vocab_fitted_on_lines_numerized_on_tokens
              Demo.slu_vocabulary_run.2.1 None 1 Demo.slu_vocabulary_run.2.2
              0%nat (py "flight"))
    as (_ & Hfit & Htrain & Hinstant & _ & Hne); [vm_compute; reflexivity|].
  split; [vm_compute; reflexivity|].
  split.
  { specialize (Hfit Demo.example_vocab Demo.example_label_vocab).
    assert (Vocabulary.fit
              (Vocabulary.__init__ SLUDatasetBuilder.class_vocab_kwargs)
              (str_list (SLUDatasetBuilder._raw_class Demo.slu_vocabulary_run.2.1))
            = Ok Demo.example_class_vocab) as Hc by (vm_compute; reflexivity).
    rewrite Hc in Hfit.
    rewrite (surjective_pairing Demo.slu_vocabulary_run.2).
    rewrite Hfit; [reflexivity| |]; vm_compute; reflexivity. }
  split; [vm_compute; reflexivity|].
  split.
  { destruct (Htrain None None Demo.slu_dataset_run.2.1 Demo.slu_dataset_run.2.2)
      as (train & test & ct & ce & tc & vc & Hdraw & _ & Hce & _ & Hvc
          & (vi & vs & Hv) & _); [vm_compute; reflexivity|].
    vm_compute in Hdraw. injection Hdraw as <- <-.
    apply Forall2_cons_inv_l in Hce as (c & ce' & Hc & Hce' & ->).
    apply Forall2_nil_inv_l in Hce' as ->.
    vm_compute in Hc. injection Hc as <-.
    vm_compute in Hvc. injection Hvc as <-.
    exists vi, vs. exact Hv. }
  split; [|exact Hne].
  destruct (Hinstant ["input.txt"] ["label.txt"] ["class.txt"] None
              {| loader_json_path := ["dataset"; "slu"; "instant_dataset.json"];
                 loader_batch_size := 1 |}
              Demo.slu_instant_run.2.1 Demo.slu_instant_run.2.2)
    as (cl & intents & inputs & slots & Hcl & Hn & Hf); [vm_compute; reflexivity|].
  vm_compute in Hcl. injection Hcl as <-.
  vm_compute in Hn. injection Hn as <-.
  exists inputs, slots. exact Hf.
Defined.

Lemma vocabulary_loading_reads_only_witness :
  load_vocab_dir (py "slu") ["nowhere"] Demo.vocab_world
  = (Raise (Exn IOError (Some "No such file or directory")), Demo.vocab_world)
  ∧ load_vocab_dir (py "slu") ["model"] Demo.classless_world
    = (Raise (Exn IOError (Some "No such file or directory")),
       Demo.classless_world).
Proof.
  destruct (vocabulary_loading_reads_only (py "slu") ["nowhere"] ["vocab.json"]
              Demo.vocab_world) as (_ & Hw & He).
  destruct (vocabulary_loading_reads_only (py "slu") ["model"] ["vocab.json"]
              Demo.classless_world) as (_ & Hw' & He').
  split.
  - destruct He as (He & _); [right; right; reflexivity|].
    rewrite (surjective_pairing (load_vocab_dir _ _ _)). rewrite Hw.
    by rewrite (He (Exn IOError (Some "No such file or directory")))
      by (vm_compute; reflexivity).
  - destruct He' as (_ & _ & He'); [right; right; reflexivity|].
    rewrite (surjective_pairing (load_vocab_dir _ _ _)). rewrite Hw'.
    by rewrite (He' (Exn IOError (Some "No such file or directory")))
      by (vm_compute; reflexivity).
Defined.
End MoreRuns.


Section BoundedRuns.
#[local] Existing Instances Demo.bounded_internals Demo.sklearn Demo.json
  Demo.constants.

Lemma ner_build_vocabulary_failed_fit_witness :
  ∃ b',
    NERDatasetBuilder.build_vocabulary (Some 1) 1
      (Demo.ner_without_vocab, Demo.empty_world)
    = (Raise (Exn ConfigurationError None), (b', Demo.empty_world))
    ∧ is_none (NERDatasetBuilder._input_vocab b')
      || is_none (NERDatasetBuilder._label_vocab b') = false.
Proof.
  destruct (ner_build_vocabulary_failed_fit Demo.ner_without_vocab (Some 1) 1
              Demo.empty_world (Exn ConfigurationError None))
    as (b' & Hrun & _ & _ & Hc); [vm_compute; reflexivity|].
  exists b'. split; [exact Hrun|exact Hc].
Defined.
End BoundedRuns.
